(** * Composite health-scoring engine and chat relay: a shallow embedding

    The scoring code of [scientific_health_assessment.js] (threshold
    classifiers, three sub-model evaluators, derivation rules, composite
    scorer, risk stratification) and the routes of the chat-relay proxy are
    written here as Rocq functions, followed by the properties that hold of
    them.

    JavaScript numbers are IEEE 754 binary64 values; they are embedded as the
    kernel's primitive [float], whose [+], [-], [*], [/] and comparisons are
    the same binary64 operations (round to nearest, ties to even; every
    comparison with NaN is false). *)

From Stdlib Require Import Floats ZArith Bool List String Lia.
Import ListNotations.

Set Warnings "-inexact-float,-register-all".
#[local] Open Scope float_scope.

(* ================================================================== *)
(** ** JavaScript values used by the scoring code *)

Module JS.

(** [a > b] and [a >= b] on numbers. *)
Definition gtb (a b : float) : bool := b <? a.
Definition geb (a b : float) : bool := b <=? a.

(** A property that may be missing reads as [undefined]: [None]. *)
Definition num := option float.

(** ToNumber: [undefined] becomes NaN. *)
Definition to_number (v : num) : float :=
  match v with
  | Some x => x
  | None => nan
  end.

(** ToBoolean on a number or [undefined]: [undefined], [+0], [-0] and NaN
    are falsy, every other number is truthy. *)
Definition truthy (v : num) : bool :=
  match v with
  | Some x => negb (is_zero x || is_nan x)
  | None => false
  end.

(** [a || b]: the left operand when it is truthy, else the right one. *)
Definition or (a b : num) : num := if truthy a then a else b.

(** ToBoolean on an object reference or [undefined]. *)
Definition present {A : Type} (o : option A) : bool :=
  match o with
  | Some _ => true
  | None => false
  end.

(** [Math.min(a, b)] and [Math.max(a, b)]: NaN when an argument is NaN, and
    [-0] counts as smaller than [+0]. *)
Definition min (a b : float) : float :=
  if is_nan a || is_nan b then nan
  else if a <? b then a
  else if b <? a then b
  else if get_sign a then a else b.

Definition max (a b : float) : float :=
  if is_nan a || is_nan b then nan
  else if a <? b then b
  else if b <? a then a
  else if get_sign a then b else a.

(** The integer [n] as a number (exact for |n| < 2^53). *)
Definition of_Z (n : Z) : float :=
  match n with
  | Z0 => zero
  | Zpos p => SF2Prim (S754_finite false p 0)
  | Zneg p => SF2Prim (S754_finite true p 0)
  end.

(** [Math.round(x)]: the integer closest to [x], the larger one on a tie;
    NaN, the infinities, the zeros and integral values are returned as they
    are, and a negative [x >= -0.5] gives [-0].  The value [m * 2^e] of a
    finite [x] is rounded exactly, as [floor (x + 1/2)]. *)
Definition round (x : float) : float :=
  match Prim2SF x with
  | S754_finite s m e =>
      if (0 <=? e)%Z then x
      else
        let k := (- e)%Z in
        let twice := if s then Zneg (2 * m) else Zpos (2 * m) in
        let n := ((twice + 2 ^ k) / 2 ^ (k + 1))%Z in
        if (n =? 0)%Z then (if s then neg_zero else zero) else of_Z n
  | _ => x
  end.

End JS.

Notation "a >? b" := (JS.gtb a b) (at level 70, no associativity) : float_scope.
Notation "a >=? b" := (JS.geb a b) (at level 70, no associativity) : float_scope.

(* ================================================================== *)
(** ** Enumerated strings

    The code tags its results with string literals.  Each family of tags is
    an enumeration of its own, in a module named after the property that
    carries it. *)

Module RiskLevel.
Inductive t := low | low_moderate | moderate | high | very_high.

(** The ordering low < low_moderate < moderate < high < very_high. *)
Definition ordinal (r : t) : nat :=
  match r with
  | low => 0
  | low_moderate => 1
  | moderate => 2
  | high => 3
  | very_high => 4
  end.
End RiskLevel.

Module Category.
Inductive t :=
| normal
| high_normal | stage1_hypertension | stage2_hypertension | stage3_hypertension
| mild_hypoxemia | severe_hypoxemia
| high_fever | fever | hypothermia | low_normal
| bradycardia | tachycardia | severe_tachycardia.
End Category.

Module Stability.
Inductive t := stable | moderate | unstable.
End Stability.

Module Level.
Inductive t := low | moderate | high.
End Level.

Module Quality.
Inductive t := poor | fair | good | excellent.
End Quality.

Module Synergy.
Inductive t := good | moderate | poor.
End Synergy.

Module Correlation.
Inductive t := positive_correlation | no_significant_correlation.
End Correlation.

Module Grade.
Inductive t := excellent | good | fair | poor | critical.
End Grade.

Module Status.
Inductive t := no_data | insufficient_data.
End Status.

(* ================================================================== *)
(** ** The reading (input) *)

Record BloodPressure := {
  systolic : float;
  diastolic : float;
  pulse : JS.num
}.

Record SpO2 := {
  percent : float;
  pi : float;
  pr : JS.num
}.

Record Temperature := {
  value : float;
  location : string
}.

Record HealthData := {
  bloodPressure : option BloodPressure;
  spO2 : option SpO2;
  temperature : option Temperature
}.

(** [healthData.bloodPressure?.pulse || healthData.spO2?.pr] *)
Definition pulseSource (healthData : HealthData) : JS.num :=
  JS.or (match bloodPressure healthData with Some bp => pulse bp | None => None end)
        (match spO2 healthData with Some s => pr s | None => None end).

(** The normal range of each measurement site, and the lookup
    [normalRanges[location] || normalRanges['腋下']].  Both temperature
    classifiers of the file declare this same table. *)
Record Range := { min : float; max : float }.

Definition axillary : Range := {| min := 36.0; max := 37.2 |}.

Definition normalRanges : list (string * Range) :=
  [ ("腋下"%string, axillary);
    ("口腔"%string, {| min := 36.3; max := 37.2 |});
    ("直腸"%string, {| min := 36.6; max := 37.6 |});
    ("耳溫"%string, {| min := 36.1; max := 37.1 |});
    ("額溫"%string, {| min := 35.8; max := 37.0 |}) ].

Fixpoint lookup {A : Type} (table : list (string * A)) (key : string) : option A :=
  match table with
  | [] => None
  | (k, v) :: rest => if String.eqb k key then Some v else lookup rest key
  end.

Definition rangeFor (location : string) : Range :=
  match lookup normalRanges location with
  | Some r => r
  | None => axillary
  end.

(* ================================================================== *)
(** ** Sub-model evaluators *)

(** The clamp [Math.max(0, Math.min(1, score))] that ends every rubric. *)
Definition clamp01 (score : float) : float := JS.max 0 (JS.min 1 score).

Module BloodPressureStabilityModel.

Record Variability := {
  coefficient : float;
  interpretation : Level.t
}.

Inductive Result :=
| NoData (status : Status.t) (score : float)
| Assessed (stability : Stability.t) (variability : Variability) (score : float).

(** The property read [result.score]; every object this evaluator builds
    carries the property. *)
Definition score (r : Result) : JS.num :=
  match r with
  | NoData _ s => Some s
  | Assessed _ _ s => Some s
  end.

Definition calculateStability (bpData : BloodPressure) : Stability.t :=
  let cv := abs (systolic bpData - diastolic bpData)
            / ((systolic bpData + diastolic bpData) / 2) in
  if cv <? 0.1 then Stability.stable
  else if cv <? 0.2 then Stability.moderate
  else Stability.unstable.

Definition calculateVariability (bpData : BloodPressure) : Variability :=
  let meanBP := (systolic bpData + diastolic bpData) / 2 in
  let variability := abs (systolic bpData - diastolic bpData) / meanBP * 100 in
  {| coefficient := variability;
     interpretation := if variability <? 10 then Level.low
                       else if variability <? 20 then Level.moderate
                       else Level.high |}.

(** The third parameter of the code, [trend], is not read: a single
    measurement has no trend. *)
Definition calculateStabilityScore (stability : Stability.t) (variability : Variability) : float :=
  let score := 0.5 in
  let score := match stability with
               | Stability.stable => score + 0.3
               | Stability.moderate => score + 0.1
               | Stability.unstable => score - 0.2
               end in
  let score := match interpretation variability with
               | Level.low => score + 0.2
               | Level.moderate => score + 0.1
               | Level.high => score - 0.1
               end in
  clamp01 score.

Definition assess (healthData : HealthData) : Result :=
  match bloodPressure healthData with
  | None => NoData Status.no_data 0
  | Some bpData =>
      let stability := calculateStability bpData in
      let variability := calculateVariability bpData in
      Assessed stability variability (calculateStabilityScore stability variability)
  end.

End BloodPressureStabilityModel.

Module BloodOxygenPerfusionModel.

Record Efficiency := {
  ratio : float;
  interpretation : Quality.t
}.

Inductive Result :=
| NoData (status : Status.t) (score : float)
| Assessed (perfusion : Quality.t) (efficiency : Efficiency) (score : float).

Definition score (r : Result) : JS.num :=
  match r with
  | NoData _ s => Some s
  | Assessed _ _ s => Some s
  end.

Definition calculatePerfusion (spo2Data : SpO2) : Quality.t :=
  let pi := pi spo2Data in
  if pi <? 0.5 then Quality.poor
  else if pi <? 1.0 then Quality.fair
  else if pi <? 2.0 then Quality.good
  else Quality.excellent.

Definition calculateEfficiency (spo2Data : SpO2) : Efficiency :=
  let efficiency := percent spo2Data / 100 in
  {| ratio := efficiency;
     interpretation := if efficiency >=? 0.95 then Quality.excellent
                       else if efficiency >=? 0.90 then Quality.good
                       else Quality.poor |}.

(** The third parameter of the code, [stability], is not read. *)
Definition calculatePerfusionScore (perfusion : Quality.t) (efficiency : Efficiency) : float :=
  let score := 0.5 in
  let score := match perfusion with
               | Quality.excellent => score + 0.3
               | Quality.good => score + 0.2
               | Quality.fair => score + 0.1
               | Quality.poor => score - 0.2
               end in
  let score := match interpretation efficiency with
               | Quality.excellent => score + 0.2
               | Quality.good => score + 0.1
               | _ => score - 0.1
               end in
  clamp01 score.

Definition assess (healthData : HealthData) : Result :=
  match spO2 healthData with
  | None => NoData Status.no_data 0
  | Some spo2Data =>
      let perfusion := calculatePerfusion spo2Data in
      let efficiency := calculateEfficiency spo2Data in
      Assessed perfusion efficiency (calculatePerfusionScore perfusion efficiency)
  end.

End BloodOxygenPerfusionModel.

Module TemperaturePulseSynergyModel.

(** What [assessTemperature] and [assessPulse] of this evaluator return. *)
Record Scored := {
  category : Category.t;
  riskLevel : RiskLevel.t;
  score : float
}.

Record SynergyInfo := {
  synergyScore : float;
  interpretation : Synergy.t;
  correlation : Correlation.t
}.

Inductive Result :=
| Insufficient (status : Status.t) (score : float)
| Assessed (temperature pulse : Scored) (synergy : SynergyInfo) (score : float).

(** The property read [result.score]. *)
Definition resultScore (r : Result) : JS.num :=
  match r with
  | Insufficient _ s => Some s
  | Assessed _ _ _ s => Some s
  end.

Definition assessTemperature (tempData : Temperature) : Scored :=
  let value := value tempData in
  let range := rangeFor (location tempData) in
  if value >? max range + 0.5 then
    {| category := Category.high_fever; riskLevel := RiskLevel.high; score := 0.2 |}
  else if value >? max range then
    {| category := Category.fever; riskLevel := RiskLevel.moderate; score := 0.4 |}
  else if value <? min range - 0.5 then
    {| category := Category.hypothermia; riskLevel := RiskLevel.high; score := 0.2 |}
  else if value <? min range then
    {| category := Category.low_normal; riskLevel := RiskLevel.low_moderate; score := 0.6 |}
  else
    {| category := Category.normal; riskLevel := RiskLevel.low; score := 1.0 |}.

Definition assessPulse (pulseData : float) : Scored :=
  if pulseData <? 50 then
    {| category := Category.bradycardia; riskLevel := RiskLevel.moderate; score := 0.4 |}
  else if pulseData >? 120 then
    {| category := Category.severe_tachycardia; riskLevel := RiskLevel.high; score := 0.2 |}
  else if pulseData >? 100 then
    {| category := Category.tachycardia; riskLevel := RiskLevel.moderate; score := 0.6 |}
  else
    {| category := Category.normal; riskLevel := RiskLevel.low; score := 1.0 |}.

(** [map[riskLevel] || 0.5]: every risk level is a key of the map and none
    of its values is falsy. *)
Definition riskLevelToNumber (riskLevel : RiskLevel.t) : float :=
  match riskLevel with
  | RiskLevel.low => 0.2
  | RiskLevel.low_moderate => 0.4
  | RiskLevel.moderate => 0.6
  | RiskLevel.high => 0.8
  | RiskLevel.very_high => 1.0
  end.

Definition analyzeCorrelation (temperature pulse : Scored) : Correlation.t :=
  match category temperature, category pulse with
  | Category.fever, Category.tachycardia => Correlation.positive_correlation
  | Category.hypothermia, Category.bradycardia => Correlation.positive_correlation
  | _, _ => Correlation.no_significant_correlation
  end.

Definition calculateSynergy (temperature pulse : Scored) : SynergyInfo :=
  let tempRisk := riskLevelToNumber (riskLevel temperature) in
  let pulseRisk := riskLevelToNumber (riskLevel pulse) in
  let synergyScore := (tempRisk + pulseRisk) / 2 in
  {| synergyScore := synergyScore;
     interpretation := if synergyScore <? 0.3 then Synergy.good
                       else if synergyScore <? 0.6 then Synergy.moderate
                       else Synergy.poor;
     correlation := analyzeCorrelation temperature pulse |}.

Definition calculateSynergyScore (temperature pulse : Scored) (synergy : SynergyInfo) : float :=
  let s := 0.5 in
  let s := s + (score temperature - 0.5) * 0.3 in
  let s := s + (score pulse - 0.5) * 0.3 in
  let s := match interpretation synergy with
           | Synergy.good => s + 0.2
           | Synergy.moderate => s + 0.1
           | Synergy.poor => s - 0.1
           end in
  clamp01 s.

Definition assess (healthData : HealthData) : Result :=
  let pulseData := pulseSource healthData in
  match temperature healthData with
  | None => Insufficient Status.insufficient_data 0
  | Some tempData =>
      if negb (JS.truthy pulseData) then Insufficient Status.insufficient_data 0
      else
        let temperature := assessTemperature tempData in
        let pulse := assessPulse (JS.to_number pulseData) in
        let synergy := calculateSynergy temperature pulse in
        Assessed temperature pulse synergy (calculateSynergyScore temperature pulse synergy)
  end.

End TemperaturePulseSynergyModel.

(* ================================================================== *)
(** ** Configurable weights *)

Module ParameterCustomization.

Record Weights := {
  bloodPressureStability : float;
  bloodOxygenPerfusion : float;
  temperaturePulseSynergy : float
}.

(** The weights the constructor installs; [updateWeights] replaces them. *)
Definition defaultWeights : Weights :=
  {| bloodPressureStability := 0.35;
     bloodOxygenPerfusion := 0.25;
     temperaturePulseSynergy := 0.40 |}.

End ParameterCustomization.

(* ================================================================== *)
(** ** Derivation engine *)

Module DataDerivationLogic.

Inductive InsightType := circulation | respiratory | metabolic.

Record Insight := {
  type : InsightType;
  insight : string;
  confidence : string;
  recommendation : string;
  reference : string;
  derivation : string
}.

Definition deriveCirculationInsight (bpData : BloodPressure) : option Insight :=
  let pulse := JS.to_number (pulse bpData) in
  if (systolic bpData >=? 140) && (pulse >? 100) then
    Some {| type := circulation;
            insight := "血壓偏高且脈搏加快，提示循環系統負荷增加";
            confidence := "moderate";
            recommendation := "建議監測血糖水平，排除代謝異常";
            reference := "基於《基礎生命體徵臨床解讀指南》第3章";
            derivation := "因無血糖數據，暫通過「血壓偏高+脈搏加快」間接提示代謝異常風險" |}
  else if (systolic bpData <? 100) && (pulse <? 60) then
    Some {| type := circulation;
            insight := "血壓偏低且脈搏緩慢，提示循環系統功能可能減弱";
            confidence := "moderate";
            recommendation := "建議評估心臟功能和體液狀態";
            reference := "基於《基礎生命體徵臨床解讀指南》第3章";
            derivation := "基於血壓和脈搏的協同變化推導循環系統狀態" |}
  else None.

Definition deriveRespiratoryInsight (spo2Data : SpO2) : option Insight :=
  if (percent spo2Data <? 95) && (pi spo2Data <? 1.0) then
    Some {| type := respiratory;
            insight := "血氧飽和度偏低且灌注指數較低，提示可能存在呼吸或循環問題";
            confidence := "moderate";
            recommendation := "建議評估呼吸功能和肺功能";
            reference := "基於《基礎生命體徵臨床解讀指南》第4章";
            derivation := "通過%SpO2與PI%的比值分析外周循環狀態" |}
  else None.

Definition deriveMetabolicInsight (tempData : Temperature) (pulseData : float) : option Insight :=
  if (value tempData >? 37.5) && (pulseData >? 100) then
    Some {| type := metabolic;
            insight := "體溫升高且脈搏加快，提示代謝率增加";
            confidence := "moderate";
            recommendation := "建議監測炎症指標和代謝參數";
            reference := "基於《基礎生命體徵臨床解讀指南》第5章";
            derivation := "基於體溫和脈搏的協同變化推導代謝狀態" |}
  else None.

(** [if (x) insights.push(x)] *)
Definition push (insights : list Insight) (x : option Insight) : list Insight :=
  match x with
  | Some i => insights ++ [i]
  | None => insights
  end.

(** The [insights] array of [generateInsights]. *)
Definition generateInsights (healthData : HealthData) : list Insight :=
  let insights := [] in
  let insights :=
    match bloodPressure healthData with
    | Some bp => push insights (deriveCirculationInsight bp)
    | None => insights
    end in
  let insights :=
    match spO2 healthData with
    | Some s => push insights (deriveRespiratoryInsight s)
    | None => insights
    end in
  let insights :=
    match temperature healthData with
    | Some t =>
        if JS.truthy (pulseSource healthData)
        then push insights (deriveMetabolicInsight t (JS.to_number (pulseSource healthData)))
        else insights
    | None => insights
    end in
  insights.

End DataDerivationLogic.

(* ================================================================== *)
(** ** Classifiers, composite scorer and risk stratification *)

Module ScientificHealthAssessment.

(** What a classifier returns: the [no_data] sentinel, or the category and
    risk level together with the values it was given and a fixed text. *)
Inductive Assessment (Raw : Type) :=
| NoData (status : Status.t) (message : string)
| Classified (category : Category.t) (riskLevel : RiskLevel.t) (raw : Raw) (assessment : string).

Arguments NoData {Raw} status message.
Arguments Classified {Raw} category riskLevel raw assessment.

Definition category {Raw : Type} (a : Assessment Raw) : option Category.t :=
  match a with
  | NoData _ _ => None
  | Classified c _ _ _ => Some c
  end.

Definition riskLevel {Raw : Type} (a : Assessment Raw) : option RiskLevel.t :=
  match a with
  | NoData _ _ => None
  | Classified _ r _ _ => Some r
  end.

Definition getBloodPressureAssessment (category : Category.t) : string :=
  match category with
  | Category.stage3_hypertension => "嚴重高血壓，需要立即醫療干預"
  | Category.stage2_hypertension => "2級高血壓，建議就醫治療"
  | Category.stage1_hypertension => "1級高血壓，建議生活方式干預"
  | Category.high_normal => "正常高值，需要預防措施"
  | Category.normal => "血壓正常"
  | _ => "血壓狀態需要進一步評估"
  end.

Definition getBloodOxygenAssessment (category : Category.t) : string :=
  match category with
  | Category.severe_hypoxemia => "嚴重低氧血症，需要立即醫療干預"
  | Category.mild_hypoxemia => "輕度低氧血症，建議監測和改善"
  | Category.normal => "血氧飽和度正常"
  | _ => "血氧狀態需要進一步評估"
  end.

Definition getTemperatureAssessment (category : Category.t) : string :=
  match category with
  | Category.high_fever => "高熱，需要降溫處理"
  | Category.fever => "發熱，建議監測和休息"
  | Category.normal => "體溫正常"
  | Category.low_normal => "體溫偏低，注意保暖"
  | Category.hypothermia => "體溫過低，需要保暖措施"
  | _ => "體溫狀態需要進一步評估"
  end.

Definition getPulseAssessment (category : Category.t) : string :=
  match category with
  | Category.severe_tachycardia => "嚴重心動過速，需要醫療評估"
  | Category.tachycardia => "心動過速，建議監測"
  | Category.normal => "脈搏正常"
  | Category.bradycardia => "心動過緩，建議監測"
  | _ => "脈搏狀態需要進一步評估"
  end.

Definition assessBloodPressure (bpData : option BloodPressure) : Assessment BloodPressure :=
  match bpData with
  | None => NoData Status.no_data "無血壓數據"
  | Some bp =>
      let systolic := systolic bp in
      let diastolic := diastolic bp in
      let '(bpCategory, riskLevel) :=
        if (systolic >=? 180) || (diastolic >=? 110) then
          (Category.stage3_hypertension, RiskLevel.very_high)
        else if (systolic >=? 160) || (diastolic >=? 100) then
          (Category.stage2_hypertension, RiskLevel.high)
        else if (systolic >=? 140) || (diastolic >=? 90) then
          (Category.stage1_hypertension, RiskLevel.moderate)
        else if (systolic >=? 130) || (diastolic >=? 85) then
          (Category.high_normal, RiskLevel.low_moderate)
        else
          (Category.normal, RiskLevel.low) in
      Classified bpCategory riskLevel bp (getBloodPressureAssessment bpCategory)
  end.

Definition assessBloodOxygen (spo2Data : option SpO2) : Assessment SpO2 :=
  match spo2Data with
  | None => NoData Status.no_data "無血氧數據"
  | Some s =>
      let '(spo2Category, riskLevel) :=
        if percent s <? 90 then (Category.severe_hypoxemia, RiskLevel.very_high)
        else if percent s <? 95 then (Category.mild_hypoxemia, RiskLevel.moderate)
        else (Category.normal, RiskLevel.low) in
      Classified spo2Category riskLevel s (getBloodOxygenAssessment spo2Category)
  end.

Definition assessTemperature (tempData : option Temperature) : Assessment (Temperature * Range) :=
  match tempData with
  | None => NoData Status.no_data "無體溫數據"
  | Some t =>
      let value := value t in
      let range := rangeFor (location t) in
      let '(tempCategory, riskLevel) :=
        if value >? max range + 0.5 then (Category.high_fever, RiskLevel.high)
        else if value >? max range then (Category.fever, RiskLevel.moderate)
        else if value <? min range - 0.5 then (Category.hypothermia, RiskLevel.high)
        else if value <? min range then (Category.low_normal, RiskLevel.low_moderate)
        else (Category.normal, RiskLevel.low) in
      Classified tempCategory riskLevel (t, range) (getTemperatureAssessment tempCategory)
  end.

(** The branches are tested in the order of the code: [< 50], then [> 100],
    then [> 120]. *)
Definition assessPulse (pulseData : JS.num) : Assessment float :=
  if negb (JS.truthy pulseData) then NoData Status.no_data "無脈搏數據"
  else
    let p := JS.to_number pulseData in
    let '(pulseCategory, riskLevel) :=
      if p <? 50 then (Category.bradycardia, RiskLevel.moderate)
      else if p >? 100 then (Category.tachycardia, RiskLevel.moderate)
      else if p >? 120 then (Category.severe_tachycardia, RiskLevel.high)
      else (Category.normal, RiskLevel.low) in
    Classified pulseCategory riskLevel p (getPulseAssessment pulseCategory).

Record BasicVitalSigns := {
  bvs_bloodPressure : Assessment BloodPressure;
  bvs_bloodOxygen : Assessment SpO2;
  bvs_temperature : Assessment (Temperature * Range);
  bvs_pulse : Assessment float
}.

Definition assessBasicVitalSigns (healthData : HealthData) : BasicVitalSigns :=
  {| bvs_bloodPressure := assessBloodPressure (bloodPressure healthData);
     bvs_bloodOxygen := assessBloodOxygen (spO2 healthData);
     bvs_temperature := assessTemperature (temperature healthData);
     bvs_pulse := assessPulse (pulseSource healthData) |}.

Definition scoreToGrade (score : float) : Grade.t :=
  if score >=? 0.9 then Grade.excellent
  else if score >=? 0.8 then Grade.good
  else if score >=? 0.6 then Grade.fair
  else if score >=? 0.4 then Grade.poor
  else Grade.critical.

Definition calculateConfidence (totalWeight : float) : float :=
  JS.min (totalWeight * 100) 100.

(** The three sub-model results handed to the composite scorer. *)
Record Assessments := {
  bpStabilityAssessment : BloodPressureStabilityModel.Result;
  spo2PerfusionAssessment : BloodOxygenPerfusionModel.Result;
  tempPulseAssessment : TemperaturePulseSynergyModel.Result
}.

(** One statement
    [if (x.score !== undefined) { totalScore += x.score * w; totalWeight += w; }]
    on the pair [(totalScore, totalWeight)]. *)
Definition accumulate (totals : float * float) (score : JS.num) (weight : float) : float * float :=
  match score with
  | Some s => (fst totals + s * weight, snd totals + weight)
  | None => totals
  end.

(** [(totalScore, totalWeight)] after the three statements. *)
Definition totals (weights : ParameterCustomization.Weights) (assessments : Assessments) : float * float :=
  let t := (0, 0) in
  let t := accumulate t (BloodPressureStabilityModel.score (bpStabilityAssessment assessments))
                      (ParameterCustomization.bloodPressureStability weights) in
  let t := accumulate t (BloodOxygenPerfusionModel.score (spo2PerfusionAssessment assessments))
                      (ParameterCustomization.bloodOxygenPerfusion weights) in
  let t := accumulate t (TemperaturePulseSynergyModel.resultScore (tempPulseAssessment assessments))
                      (ParameterCustomization.temperaturePulseSynergy weights) in
  t.

Record Breakdown := {
  bd_bloodPressureStability : float;
  bd_bloodOxygenPerfusion : float;
  bd_temperaturePulseSynergy : float
}.

Record CompositeScore := {
  score : float;
  grade : Grade.t;
  confidence : float;
  weights : ParameterCustomization.Weights;
  breakdown : Breakdown
}.

(** [x.score || 0] *)
Definition orZero (score : JS.num) : float := JS.to_number (JS.or score (Some 0)).

Definition calculateCompositeScore (weights : ParameterCustomization.Weights)
    (assessments : Assessments) : CompositeScore :=
  let '(totalScore, totalWeight) := totals weights assessments in
  let compositeScore := if totalWeight >? 0 then totalScore / totalWeight else 0 in
  {| score := JS.round (compositeScore * 100) / 100;
     grade := scoreToGrade compositeScore;
     confidence := calculateConfidence totalWeight;
     weights := weights;
     breakdown :=
       {| bd_bloodPressureStability :=
            orZero (BloodPressureStabilityModel.score (bpStabilityAssessment assessments));
          bd_bloodOxygenPerfusion :=
            orZero (BloodOxygenPerfusionModel.score (spo2PerfusionAssessment assessments));
          bd_temperaturePulseSynergy :=
            orZero (TemperaturePulseSynergyModel.resultScore (tempPulseAssessment assessments)) |} |}.

(** [intervals[riskCategory] || '每月'] *)
Definition intervals : list (string * string) :=
  [ ("very_high", "每日"); ("high", "每週"); ("moderate", "每月"); ("low", "每季度") ]%string.

Definition getFollowUpInterval (riskCategory : string) : string :=
  match lookup intervals riskCategory with
  | Some i => i
  | None => "每月"
  end.

Record RiskStratification := {
  rs_category : string;
  rs_level : Grade.t;
  rs_score : float;
  rs_recommendations : list string;
  rs_followUpInterval : string
}.

Definition isGrade (g g' : Grade.t) : bool :=
  match g, g' with
  | Grade.excellent, Grade.excellent
  | Grade.good, Grade.good
  | Grade.fair, Grade.fair
  | Grade.poor, Grade.poor
  | Grade.critical, Grade.critical => true
  | _, _ => false
  end.

(** The second parameter of the code, [healthData], is not read. *)
Definition performRiskStratification (compositeScore : CompositeScore) : RiskStratification :=
  let score := score compositeScore in
  let grade := grade compositeScore in
  let '(riskCategory, recommendations) :=
    if isGrade grade Grade.critical || (score <? 0.4) then
      ("very_high", ["立即就醫"; "密切監測生命體徵"; "避免劇烈活動"])%string
    else if isGrade grade Grade.poor || (score <? 0.6) then
      ("high", ["建議就醫諮詢"; "增加監測頻率"; "調整生活方式"])%string
    else if isGrade grade Grade.fair || (score <? 0.8) then
      ("moderate", ["定期監測"; "改善生活習慣"; "預防性措施"])%string
    else
      ("low", ["維持良好習慣"; "定期體檢"; "持續監測"])%string in
  {| rs_category := riskCategory;
     rs_level := grade;
     rs_score := score;
     rs_recommendations := recommendations;
     rs_followUpInterval := getFollowUpInterval riskCategory |}.

(** The sub-model step of [generateComprehensiveAssessment]. *)
Definition subModelAssessments (healthData : HealthData) : Assessments :=
  {| bpStabilityAssessment := BloodPressureStabilityModel.assess healthData;
     spo2PerfusionAssessment := BloodOxygenPerfusionModel.assess healthData;
     tempPulseAssessment := TemperaturePulseSynergyModel.assess healthData |}.

Record Report := {
  compositeScore : CompositeScore;
  riskStratification : RiskStratification;
  basicVitalSigns : BasicVitalSigns;
  subModels : Assessments;
  derivedInsights : list DataDerivationLogic.Insight
}.

(** The orchestrator, for an assessor whose weights are [weights].  The
    timestamp, the transparency report and the recommendation texts are not
    part of the scoring and are left out. *)
Definition generateComprehensiveAssessment (weights : ParameterCustomization.Weights)
    (healthData : HealthData) : Report :=
  let basicVitalSigns := assessBasicVitalSigns healthData in
  let assessments := subModelAssessments healthData in
  let derivedInsights := DataDerivationLogic.generateInsights healthData in
  let compositeScore := calculateCompositeScore weights assessments in
  {| compositeScore := compositeScore;
     riskStratification := performRiskStratification compositeScore;
     basicVitalSigns := basicVitalSigns;
     subModels := assessments;
     derivedInsights := derivedInsights |}.

End ScientificHealthAssessment.

(* ================================================================== *)
(** ** Chat-relay proxy

    The Express application: the static-file middleware, then the three
    routes.  A request is its method, the pathname the router matches, the
    body as [express.json] parsed it and the [Authorization] header.  Only
    GET and POST are modelled; the [cors] middleware adds headers to the
    answer and changes neither its status nor its body. *)

Module Proxy.

Inductive Json :=
| JNull
| JBool (b : bool)
| JNumber (x : float)
| JString (s : string)
| JArray (items : list Json)
| JObject (fields : list (string * Json)).

Inductive Method := GET | POST.

Record Request := {
  method : Method;
  path : string;
  body : Json;
  authorization : option string
}.

Inductive Body :=
| JsonBody (json : Json)
| FileBody (content : string)
| DefaultBody.

Record Response := {
  status : Z;
  payload : Body
}.

(** The call [axios.post(url, data, { headers })]. *)
Record UpstreamCall := {
  url : string;
  data : Json;
  contentType : string;
  authorizationHeader : option string
}.

(** How the promise of [axios.post] settles: fulfilled with a response, or
    rejected with an error that carries [error.response] (the upstream
    answered with a failure status) or only [error.message]. *)
Inductive Settled :=
| Fulfilled (responseData : Json)
| RejectedWithResponse (responseStatus : Z) (responseData : Json)
| RejectedWithoutResponse (message : string).

Section App.

(** [express.static]: the file it serves for a GET pathname, or [None] when
    it finds none and passes the request on. *)
Variable static : string -> option string.

(** The upstream chat-completion endpoint. *)
Variable upstream : UpstreamCall -> Settled.

Definition getRoot (req : Request) : Response :=
  {| status := 200;
     payload := JsonBody (JObject
       [ ("ok", JBool true);
         ("message", JString "Proxy server is running. Use POST /api/chat to send messages.") ]%string) |}.

Definition getApiChat (req : Request) : Response :=
  {| status := 405;
     payload := JsonBody (JObject
       [ ("ok", JBool false);
         ("message", JString "Method Not Allowed. Please POST to /api/chat with { model, messages }.") ]%string) |}.

Definition postApiChat (req : Request) : Response :=
  match upstream {| url := "https://api.deepseek.com/v1/chat/completions";
                    data := body req;
                    contentType := "application/json";
                    authorizationHeader := authorization req |} with
  | Fulfilled responseData =>
      {| status := 200; payload := JsonBody responseData |}
  | RejectedWithResponse responseStatus responseData =>
      {| status := responseStatus;
         payload := JsonBody (JObject
           [ ("message", JString "Error proxying to DeepSeek API");
             ("error", responseData) ]%string) |}
  | RejectedWithoutResponse message =>
      {| status := 500;
         payload := JsonBody (JObject
           [ ("message", JString "Error proxying to DeepSeek API");
             ("error", JString message) ]%string) |}
  end.

(** The routes in registration order; a request no route matches gets the
    framework's 404. *)
Definition routes (req : Request) : Response :=
  match method req with
  | GET =>
      if String.eqb (path req) "/" then getRoot req
      else if String.eqb (path req) "/api/chat" then getApiChat req
      else {| status := 404; payload := DefaultBody |}
  | POST =>
      if String.eqb (path req) "/api/chat" then postApiChat req
      else {| status := 404; payload := DefaultBody |}
  end.

Definition app (req : Request) : Response :=
  match method req with
  | GET =>
      match static (path req) with
      | Some content => {| status := 200; payload := FileBody content |}
      | None => routes req
      end
  | POST => routes req
  end.

End App.

End Proxy.

(* ================================================================== *)
(** ** Reference definitions, in the words of the specification

    These are not translations of the code: they say what the
    specification asks for, and the theorems below compare the code with
    them. *)

Module Spec.

(** The category of one blood-pressure value against its own four
    thresholds. *)
Definition categoryBy (t3 t2 t1 t0 : float) (v : float) : Category.t :=
  if v >=? t3 then Category.stage3_hypertension
  else if v >=? t2 then Category.stage2_hypertension
  else if v >=? t1 then Category.stage1_hypertension
  else if v >=? t0 then Category.high_normal
  else Category.normal.

Definition systolicCategory : float -> Category.t := categoryBy 180 160 140 130.
Definition diastolicCategory : float -> Category.t := categoryBy 110 100 90 85.

Definition severity (c : Category.t) : nat :=
  match c with
  | Category.stage3_hypertension => 4
  | Category.stage2_hypertension => 3
  | Category.stage1_hypertension => 2
  | Category.high_normal => 1
  | _ => 0
  end.

Definition moreSevere (c1 c2 : Category.t) : Category.t :=
  if Nat.ltb (severity c1) (severity c2) then c2 else c1.

Definition riskOf (c : Category.t) : RiskLevel.t :=
  match c with
  | Category.stage3_hypertension => RiskLevel.very_high
  | Category.stage2_hypertension => RiskLevel.high
  | Category.stage1_hypertension => RiskLevel.moderate
  | Category.high_normal => RiskLevel.low_moderate
  | _ => RiskLevel.low
  end.

(** The total weight of the sub-models whose input is present in the
    reading: blood pressure, SpO2, and temperature together with a pulse. *)
Definition presentWeight (weights : ParameterCustomization.Weights) (healthData : HealthData) : float :=
  let t := 0 in
  let t := if JS.present (bloodPressure healthData)
           then t + ParameterCustomization.bloodPressureStability weights else t in
  let t := if JS.present (spO2 healthData)
           then t + ParameterCustomization.bloodOxygenPerfusion weights else t in
  let t := if JS.present (temperature healthData) && JS.truthy (pulseSource healthData)
           then t + ParameterCustomization.temperaturePulseSynergy weights else t in
  t.

End Spec.

(** Readings used as examples below. *)
Module Readings.

(** No substructure at all. *)
Definition empty : HealthData :=
  {| bloodPressure := None; spO2 := None; temperature := None |}.

(** Blood pressure 120/80 with pulse 72, axillary temperature 36.5, and no
    SpO2 substructure. *)
Definition withoutSpO2 : HealthData :=
  {| bloodPressure := Some {| systolic := 120; diastolic := 80; pulse := Some 72 |};
     spO2 := None;
     temperature := Some {| value := 36.5; location := "腋下" |} |}.

(** Axillary temperature 38.2 and a cuff pulse of 110. *)
Definition feverish : HealthData :=
  {| bloodPressure := Some {| systolic := 120; diastolic := 80; pulse := Some 110 |};
     spO2 := None;
     temperature := Some {| value := 38.2; location := "腋下" |} |}.

(** Axillary temperature 37.5 (above 37.2, not above 37.7) and a cuff pulse
    of 110. *)
Definition mildFever : HealthData :=
  {| bloodPressure := Some {| systolic := 120; diastolic := 80; pulse := Some 110 |};
     spO2 := None;
     temperature := Some {| value := 37.5; location := "腋下" |} |}.

End Readings.

(* ================================================================== *)
(** ** Finite enumerations of the scores

    The rubrics depend on their inputs through a few tiers only, so each
    evaluator has finitely many possible scores.  They are listed here and
    used for the range properties. *)

Import ScientificHealthAssessment.

Module Ranges.

Definition in01 (x : float) : bool := (0 <=? x) && (x <=? 1).
Definition in0_100 (x : float) : bool := (0 <=? x) && (x <=? 100).

(** Every score the blood-pressure-stability evaluator can return: the 0 of
    the [no_data] object and the rubric's value for each pair of tiers. *)
Definition stabilityScores : list float :=
  0 :: flat_map (fun st =>
         map (fun i => BloodPressureStabilityModel.calculateStabilityScore st
                         {| BloodPressureStabilityModel.coefficient := 0;
                            BloodPressureStabilityModel.interpretation := i |})
             [Level.low; Level.moderate; Level.high])
       [Stability.stable; Stability.moderate; Stability.unstable].

Definition perfusionScores : list float :=
  0 :: flat_map (fun q =>
         map (fun e => BloodOxygenPerfusionModel.calculatePerfusionScore q
                         {| BloodOxygenPerfusionModel.ratio := 0;
                            BloodOxygenPerfusionModel.interpretation := e |})
             [Quality.excellent; Quality.good; Quality.poor])
       [Quality.poor; Quality.fair; Quality.good; Quality.excellent].

Definition temperatureOutcomes : list TemperaturePulseSynergyModel.Scored :=
  map (fun '(c, r, s) =>
         {| TemperaturePulseSynergyModel.category := c;
            TemperaturePulseSynergyModel.riskLevel := r;
            TemperaturePulseSynergyModel.score := s |})
      [ (Category.high_fever, RiskLevel.high, 0.2);
        (Category.fever, RiskLevel.moderate, 0.4);
        (Category.hypothermia, RiskLevel.high, 0.2);
        (Category.low_normal, RiskLevel.low_moderate, 0.6);
        (Category.normal, RiskLevel.low, 1.0) ].

Definition pulseOutcomes : list TemperaturePulseSynergyModel.Scored :=
  map (fun '(c, r, s) =>
         {| TemperaturePulseSynergyModel.category := c;
            TemperaturePulseSynergyModel.riskLevel := r;
            TemperaturePulseSynergyModel.score := s |})
      [ (Category.bradycardia, RiskLevel.moderate, 0.4);
        (Category.severe_tachycardia, RiskLevel.high, 0.2);
        (Category.tachycardia, RiskLevel.moderate, 0.6);
        (Category.normal, RiskLevel.low, 1.0) ].

Definition synergyScores : list float :=
  0 :: flat_map (fun t =>
         map (fun p => TemperaturePulseSynergyModel.calculateSynergyScore t p
                         (TemperaturePulseSynergyModel.calculateSynergy t p))
             pulseOutcomes)
       temperatureOutcomes.

(** The composite of three sub-model objects that carry the given scores. *)
Definition compositeOf (weights : ParameterCustomization.Weights) (x1 x2 x3 : float) : CompositeScore :=
  calculateCompositeScore weights
    {| bpStabilityAssessment := BloodPressureStabilityModel.NoData Status.no_data x1;
       spo2PerfusionAssessment := BloodOxygenPerfusionModel.NoData Status.no_data x2;
       tempPulseAssessment := TemperaturePulseSynergyModel.Insufficient Status.insufficient_data x3 |}.

Definition compositeInRange (cs : CompositeScore) : bool :=
  in01 (score cs) && in0_100 (confidence cs).

End Ranges.

(* ================================================================== *)
(** * The rest of the code base

    The rest of the assessment module, the second assessment module, the
    chart preparation and the chat message. *)

(* ================================================================== *)
(** ** Orders on the labels *)

Module Tier.

(** Temperature categories from coldest to hottest. *)
Definition temperature (c : Category.t) : nat :=
  match c with
  | Category.hypothermia => 0
  | Category.low_normal => 1
  | Category.normal => 2
  | Category.fever => 3
  | Category.high_fever => 4
  | _ => 2
  end.

(** Grades from worst to best. *)
Definition grade (g : Grade.t) : nat :=
  match g with
  | Grade.critical => 0
  | Grade.poor => 1
  | Grade.fair => 2
  | Grade.good => 3
  | Grade.excellent => 4
  end.

End Tier.

(* ================================================================== *)
(** ** Recommendations and data limitations

    The remaining methods of [ScientificHealthAssessment] that build the
    text lists of the report. *)

Module Advice.

Record Recommendations := {
  lifestyle : list string;
  monitoring : list string
}.

Definition getBloodPressureRecommendations (bpData : BloodPressure) : Recommendations :=
  if (systolic bpData >=? 140) || (diastolic bpData >=? 90) then
    {| lifestyle := [ "低鹽飲食（每日鹽攝入≤5g）"; "規律有氧運動（每週150分鐘）"; "控制體重，避免肥胖" ];
       monitoring := [ "每日早晚各測量一次血壓" ] |}%string
  else {| lifestyle := []; monitoring := [] |}.

Definition getBloodOxygenRecommendations (spo2Data : SpO2) : Recommendations :=
  if percent spo2Data <? 95 then
    {| lifestyle := [ "改善室內通風"; "避免吸煙和二手煙"; "適度有氧運動" ];
       monitoring := [ "每日監測血氧飽和度" ] |}%string
  else {| lifestyle := []; monitoring := [] |}.

(** [if (cond) list.push(text)] *)
Definition pushIf (cond : bool) (text : string) (items : list string) : list string :=
  if cond then items ++ [text] else items.

Definition getDataCollectionRecommendations (healthData : HealthData) : list string :=
  let recommendations := [] in
  let recommendations :=
    pushIf (negb (JS.present (bloodPressure healthData))) "建議添加血壓監測設備" recommendations in
  let recommendations :=
    pushIf (negb (JS.present (spO2 healthData))) "建議添加血氧監測設備" recommendations in
  recommendations ++ [ "建議補充血糖監測數據"; "建議添加運動記錄功能"; "建議添加飲食記錄功能" ]%string.

Definition getDataLimitations (healthData : HealthData) : list string :=
  let limitations := [] in
  let limitations :=
    pushIf (negb (JS.present (bloodPressure healthData))) "缺少血壓數據" limitations in
  let limitations :=
    pushIf (negb (JS.present (spO2 healthData))) "缺少血氧數據" limitations in
  let limitations :=
    pushIf (negb (JS.present (temperature healthData))) "缺少體溫數據" limitations in
  limitations ++ [ "缺少血糖、血脂、運動、飲食等數據"; "部分評估基於邏輯推導，建議補充完整數據" ]%string.

Record Personalized := {
  immediate : list string;
  pLifestyle : list string;
  pMonitoring : list string;
  medical : list string;
  dataCollection : list string
}.

(** The second parameter of the code, [compositeScore], is not read. *)
Definition generatePersonalizedRecommendations (healthData : HealthData)
    (riskStratification : RiskStratification) : Personalized :=
  let lifestyle := [] in
  let monitoring := [] in
  let '(lifestyle, monitoring) :=
    match bloodPressure healthData with
    | Some bp =>
        let bpRecs := getBloodPressureRecommendations bp in
        (lifestyle ++ Advice.lifestyle bpRecs, monitoring ++ Advice.monitoring bpRecs)
    | None => (lifestyle, monitoring)
    end in
  let '(lifestyle, monitoring) :=
    match spO2 healthData with
    | Some s =>
        let spo2Recs := getBloodOxygenRecommendations s in
        (lifestyle ++ Advice.lifestyle spo2Recs, monitoring ++ Advice.monitoring spo2Recs)
    | None => (lifestyle, monitoring)
    end in
  {| immediate := rs_recommendations riskStratification;
     pLifestyle := lifestyle;
     pMonitoring := monitoring;
     medical := [];
     dataCollection := getDataCollectionRecommendations healthData |}.

(** Steps 4 to 6 of [generateComprehensiveAssessment]: the recommendations
    of the report for an assessor whose weights are [weights]. *)
Definition personalizedRecommendations (weights : ParameterCustomization.Weights)
    (healthData : HealthData) : Personalized :=
  generatePersonalizedRecommendations healthData
    (riskStratification (generateComprehensiveAssessment weights healthData)).

End Advice.

(* ================================================================== *)
(** ** Derivation engine *)

Module Derived.

(** The array holding [x] when there is one. *)
Definition optional {A : Type} (x : option A) : list A :=
  match x with
  | Some a => [a]
  | None => []
  end.

(** What each of the three steps of [generateInsights] may push. *)
Definition circulationOf (healthData : HealthData) : option DataDerivationLogic.Insight :=
  match bloodPressure healthData with
  | Some bp => DataDerivationLogic.deriveCirculationInsight bp
  | None => None
  end.

Definition respiratoryOf (healthData : HealthData) : option DataDerivationLogic.Insight :=
  match spO2 healthData with
  | Some s => DataDerivationLogic.deriveRespiratoryInsight s
  | None => None
  end.

Definition metabolicOf (healthData : HealthData) : option DataDerivationLogic.Insight :=
  match temperature healthData with
  | Some t =>
      if JS.truthy (pulseSource healthData)
      then DataDerivationLogic.deriveMetabolicInsight t (JS.to_number (pulseSource healthData))
      else None
  | None => None
  end.

End Derived.

(* ================================================================== *)
(** ** Grade, risk category and confidence of the report *)

Module Consistency.

(** The risk category that goes with a grade. *)
Definition categoryOfGrade (g : Grade.t) : string :=
  match g with
  | Grade.critical => "very_high"
  | Grade.poor => "high"
  | Grade.fair => "moderate"
  | Grade.good | Grade.excellent => "low"
  end.

Definition gradeDecidesCategory (cs : CompositeScore) : bool :=
  String.eqb (rs_category (performRiskStratification cs)) (categoryOfGrade (grade cs)).

Definition atMostFair (cs : CompositeScore) : bool :=
  Nat.leb (Tier.grade (grade cs)) 2.

End Consistency.

(* ================================================================== *)
(** ** Whole-number readings

    Blood pressure in whole mmHg and saturation in whole percents, with the
    tiers written in exact integer arithmetic, to be compared with what the
    binary64 computations of the code give. *)

Module Grid.

(** The tiers in exact arithmetic on whole numbers: the coefficient
    [|s - d| / ((s + d) / 2)] is below 0.1 when [20 |s - d| < s + d] and
    below 0.2 when [10 |s - d| < s + d]. *)
Definition exactStability (s d : Z) : Stability.t :=
  if (20 * Z.abs (s - d) <? s + d)%Z then Stability.stable
  else if (10 * Z.abs (s - d) <? s + d)%Z then Stability.moderate
  else Stability.unstable.

Definition exactLevel (s d : Z) : Level.t :=
  if (20 * Z.abs (s - d) <? s + d)%Z then Level.low
  else if (10 * Z.abs (s - d) <? s + d)%Z then Level.moderate
  else Level.high.

Definition sameStability (a b : Stability.t) : bool :=
  match a, b with
  | Stability.stable, Stability.stable
  | Stability.moderate, Stability.moderate
  | Stability.unstable, Stability.unstable => true
  | _, _ => false
  end.

Definition sameLevel (a b : Level.t) : bool :=
  match a, b with
  | Level.low, Level.low
  | Level.moderate, Level.moderate
  | Level.high, Level.high => true
  | _, _ => false
  end.

Definition cuff (s d : Z) : BloodPressure :=
  {| systolic := JS.of_Z s; diastolic := JS.of_Z d; pulse := None |}.

Definition agrees (s d : Z) : bool :=
  sameStability (BloodPressureStabilityModel.calculateStability (cuff s d)) (exactStability s d)
  && sameLevel (BloodPressureStabilityModel.interpretation
                  (BloodPressureStabilityModel.calculateVariability (cuff s d)))
               (exactLevel s d).

(** The whole numbers 1 .. 300. *)
Definition values : list Z := map Z.of_nat (seq 1 300).

End Grid.

Module Percent.

(** The whole numbers 0 .. 100. *)
Definition values : list Z := map Z.of_nat (seq 0 101).

(** The efficiency label that goes with a saturation category. *)
Definition labelOf (c : Category.t) : Quality.t :=
  match c with
  | Category.severe_hypoxemia => Quality.poor
  | Category.mild_hypoxemia => Quality.good
  | _ => Quality.excellent
  end.

Definition sameQuality (a b : Quality.t) : bool :=
  match a, b with
  | Quality.poor, Quality.poor
  | Quality.fair, Quality.fair
  | Quality.good, Quality.good
  | Quality.excellent, Quality.excellent => true
  | _, _ => false
  end.

Definition agrees (n : Z) : bool :=
  let s := {| percent := JS.of_Z n; pi := 1; pr := None |} in
  match category (assessBloodOxygen (Some s)) with
  | Some c =>
      sameQuality (BloodOxygenPerfusionModel.interpretation
                     (BloodOxygenPerfusionModel.calculateEfficiency s))
                  (labelOf c)
  | None => false
  end.

(** The perfusion labels from worst to best. *)
Definition rank (q : Quality.t) : nat :=
  match q with
  | Quality.poor => 0
  | Quality.fair => 1
  | Quality.good => 2
  | Quality.excellent => 3
  end.

End Percent.

(* ================================================================== *)
(** ** Updating the weights *)

Module Customization.

(** The argument of [updateWeights]: an object that holds some of the
    three weights. *)
Record Patch := {
  bloodPressureStability : option float;
  bloodOxygenPerfusion : option float;
  temperaturePulseSynergy : option float
}.

(** One key of [{ ...old, ...new }]. *)
Definition spread (old : float) (new : option float) : float :=
  match new with
  | Some v => v
  | None => old
  end.

Definition updateWeights (weights : ParameterCustomization.Weights) (newWeights : Patch)
  : ParameterCustomization.Weights :=
  {| ParameterCustomization.bloodPressureStability :=
       spread (ParameterCustomization.bloodPressureStability weights)
              (bloodPressureStability newWeights);
     ParameterCustomization.bloodOxygenPerfusion :=
       spread (ParameterCustomization.bloodOxygenPerfusion weights)
              (bloodOxygenPerfusion newWeights);
     ParameterCustomization.temperaturePulseSynergy :=
       spread (ParameterCustomization.temperaturePulseSynergy weights)
              (temperaturePulseSynergy newWeights) |}.

(** The later value of a key, when the later object holds the key. *)
Definition later (first second : option float) : option float :=
  match second with
  | Some v => Some v
  | None => first
  end.

End Customization.

(* ================================================================== *)
(** ** The second assessment module

    [ProfessionalHealthAssessment] and the sub-model classes declared with
    it.  Its sub-models return no [score]; its composite scorer reads the
    [riskLevel] property of the objects it is given.  [calculateStability],
    [calculatePerfusion] and [calculateEfficiency] have the text of the
    methods of the same names modelled above, which are used for them. *)

Module ProfessionalHealthAssessment.

(** What [BloodPressureStabilityModel.assess] builds: [{ status }] or
    [{ stability, variability, trend, assessment }]. *)
Inductive StabilityResult :=
| StabilityNoData (status : Status.t)
| StabilityAssessed (stability : Stability.t) (coefficient : float) (interpretation : string).

(** What [BloodOxygenPerfusionModel.assess] builds: [{ status }] or
    [{ perfusion, efficiency, stability, assessment }]. *)
Inductive PerfusionResult :=
| PerfusionNoData (status : Status.t)
| PerfusionAssessed (perfusion : Quality.t) (ratio : float) (interpretation : Quality.t).

(** The property read [result.riskLevel] on these objects: neither kind of
    object has the property, so the read gives [undefined]. *)
Definition stabilityRiskLevel (r : StabilityResult) : option RiskLevel.t :=
  match r with
  | StabilityNoData _ => None
  | StabilityAssessed _ _ _ => None
  end.

Definition perfusionRiskLevel (r : PerfusionResult) : option RiskLevel.t :=
  match r with
  | PerfusionNoData _ => None
  | PerfusionAssessed _ _ _ => None
  end.

Definition assessStability (healthData : HealthData) : StabilityResult :=
  match bloodPressure healthData with
  | None => StabilityNoData Status.no_data
  | Some bpData =>
      StabilityAssessed
        (BloodPressureStabilityModel.calculateStability bpData)
        (abs (systolic bpData - diastolic bpData)
           / ((systolic bpData + diastolic bpData) / 2) * 100)
        "single_measurement"
  end.

Definition assessPerfusion (healthData : HealthData) : PerfusionResult :=
  match spO2 healthData with
  | None => PerfusionNoData Status.no_data
  | Some spo2Data =>
      PerfusionAssessed
        (BloodOxygenPerfusionModel.calculatePerfusion spo2Data)
        (percent spo2Data / 100)
        (BloodOxygenPerfusionModel.interpretation
           (BloodOxygenPerfusionModel.calculateEfficiency spo2Data))
  end.

(** What [assessTemperature] and [assessPulse] of the synergy model build,
    and the [{ status: 'no_data' }] object used in their place. *)
Inductive Rated :=
| RatedNoData (status : Status.t)
| RatedAs (category : Category.t) (riskLevel : RiskLevel.t).

Definition ratedRiskLevel (r : Rated) : option RiskLevel.t :=
  match r with
  | RatedNoData _ => None
  | RatedAs _ l => Some l
  end.

Definition assessTemperature (tempData : Temperature) : Rated :=
  let value := value tempData in
  let range := rangeFor (location tempData) in
  if value >? max range + 0.5 then RatedAs Category.high_fever RiskLevel.high
  else if value >? max range then RatedAs Category.fever RiskLevel.moderate
  else if value <? min range - 0.5 then RatedAs Category.hypothermia RiskLevel.high
  else if value <? min range then RatedAs Category.low_normal RiskLevel.low_moderate
  else RatedAs Category.normal RiskLevel.low.

Definition assessPulse (pulseData : float) : Rated :=
  if pulseData <? 50 then RatedAs Category.bradycardia RiskLevel.moderate
  else if pulseData >? 120 then RatedAs Category.severe_tachycardia RiskLevel.high
  else if pulseData >? 100 then RatedAs Category.tachycardia RiskLevel.moderate
  else RatedAs Category.normal RiskLevel.low.

Inductive SynergyResult :=
| SynergyInsufficient (status : Status.t)
| SynergyOf (score : float) (interpretation : Synergy.t) (correlation : Correlation.t).

Definition analyzeCorrelation (temperature pulse : Category.t) : Correlation.t :=
  match temperature, pulse with
  | Category.fever, Category.tachycardia => Correlation.positive_correlation
  | Category.hypothermia, Category.bradycardia => Correlation.positive_correlation
  | _, _ => Correlation.no_significant_correlation
  end.

Definition calculateSynergy (temperature pulse : Rated) : SynergyResult :=
  match temperature, pulse with
  | RatedAs tc tr, RatedAs pc pr =>
      let tempRisk := TemperaturePulseSynergyModel.riskLevelToNumber tr in
      let pulseRisk := TemperaturePulseSynergyModel.riskLevelToNumber pr in
      let synergyScore := (tempRisk + pulseRisk) / 2 in
      SynergyOf synergyScore
        (if synergyScore <? 0.3 then Synergy.good
         else if synergyScore <? 0.6 then Synergy.moderate
         else Synergy.poor)
        (analyzeCorrelation tc pc)
  | _, _ => SynergyInsufficient Status.insufficient_data
  end.

Record TempPulseResult := {
  temperatureRated : Rated;
  pulseRated : Rated;
  synergy : SynergyResult
}.

Definition assessTempPulse (healthData : HealthData) : TempPulseResult :=
  let pulseData := pulseSource healthData in
  let temperature :=
    match temperature healthData with
    | Some tempData => assessTemperature tempData
    | None => RatedNoData Status.no_data
    end in
  let pulse :=
    if JS.truthy pulseData then assessPulse (JS.to_number pulseData)
    else RatedNoData Status.no_data in
  {| temperatureRated := temperature;
     pulseRated := pulse;
     synergy := calculateSynergy temperature pulse |}.

Definition riskLevelToScore (riskLevel : RiskLevel.t) : float :=
  match riskLevel with
  | RiskLevel.very_high => 0.2
  | RiskLevel.high => 0.4
  | RiskLevel.moderate => 0.6
  | RiskLevel.low_moderate => 0.8
  | RiskLevel.low => 1.0
  end.

Record Assessments := {
  bpAssessment : StabilityResult;
  spo2Assessment : PerfusionResult;
  tempPulseAssessment : TempPulseResult
}.

(** One statement
    [if (x.riskLevel) { totalScore += riskLevelToScore(x.riskLevel) * w; totalWeight += w; }]. *)
Definition accumulate (totals : float * float) (riskLevel : option RiskLevel.t) (weight : float)
  : float * float :=
  match riskLevel with
  | Some l => (fst totals + riskLevelToScore l * weight, snd totals + weight)
  | None => totals
  end.

Definition totals (assessments : Assessments) : float * float :=
  let t := (0, 0) in
  let t := accumulate t (stabilityRiskLevel (bpAssessment assessments)) 0.35 in
  let t := accumulate t (perfusionRiskLevel (spo2Assessment assessments)) 0.25 in
  let t := accumulate t (ratedRiskLevel (temperatureRated (tempPulseAssessment assessments))) 0.20 in
  let t := accumulate t (ratedRiskLevel (pulseRated (tempPulseAssessment assessments))) 0.20 in
  t.

Record CompositeScore := {
  score : float;
  grade : Grade.t;
  confidence : float
}.

(** [scoreToGrade] and [calculateConfidence] have the text of the methods of
    the same names in [ScientificHealthAssessment]. *)
Definition calculateCompositeScore (assessments : Assessments) : CompositeScore :=
  let '(totalScore, totalWeight) := totals assessments in
  let compositeScore := if totalWeight >? 0 then totalScore / totalWeight else 0 in
  {| score := JS.round (compositeScore * 100) / 100;
     grade := ScientificHealthAssessment.scoreToGrade compositeScore;
     confidence := ScientificHealthAssessment.calculateConfidence totalWeight |}.

Definition subModelAssessments (healthData : HealthData) : Assessments :=
  {| bpAssessment := assessStability healthData;
     spo2Assessment := assessPerfusion healthData;
     tempPulseAssessment := assessTempPulse healthData |}.

(** The composite score of [generateComprehensiveAssessment]. *)
Definition compositeOf (healthData : HealthData) : CompositeScore :=
  calculateCompositeScore (subModelAssessments healthData).

End ProfessionalHealthAssessment.

Module Pro := ProfessionalHealthAssessment.

(* ================================================================== *)
(** ** Chart preparation

    The data-preparation methods of [ProfessionalVisualization].  A sample
    is a reading with its timestamp; the styling fields of a dataset (colours,
    widths) are left out. *)

Module ProfessionalVisualization.

Record Item := {
  timestamp : string;
  reading : HealthData
}.

(** [riskScore] at the end of the four blocks of [assessRiskLevel]. *)
Definition riskScore (item : Item) : nat :=
  let riskScore := 0%nat in
  let riskScore :=
    match bloodPressure (reading item) with
    | Some bp =>
        if (systolic bp >=? 180) || (diastolic bp >=? 110) then (riskScore + 3)%nat
        else if (systolic bp >=? 160) || (diastolic bp >=? 100) then (riskScore + 2)%nat
        else if (systolic bp >=? 140) || (diastolic bp >=? 90) then (riskScore + 1)%nat
        else riskScore
    | None => riskScore
    end in
  let riskScore :=
    match spO2 (reading item) with
    | Some s =>
        if percent s <? 85 then (riskScore + 3)%nat
        else if percent s <? 90 then (riskScore + 2)%nat
        else if percent s <? 95 then (riskScore + 1)%nat
        else riskScore
    | None => riskScore
    end in
  let riskScore :=
    match temperature (reading item) with
    | Some t =>
        if (value t >? 38.5) || (value t <? 35) then (riskScore + 2)%nat
        else if (value t >? 37.5) || (value t <? 36) then (riskScore + 1)%nat
        else riskScore
    | None => riskScore
    end in
  let pulse := pulseSource (reading item) in
  let riskScore :=
    if JS.truthy pulse then
      let p := JS.to_number pulse in
      if (p >? 120) || (p <? 50) then (riskScore + 2)%nat
      else if (p >? 100) || (p <? 60) then (riskScore + 1)%nat
      else riskScore
    else riskScore in
  riskScore.

Definition assessRiskLevel (item : Item) : RiskLevel.t :=
  let riskScore := riskScore item in
  if Nat.leb 6 riskScore then RiskLevel.very_high
  else if Nat.leb 4 riskScore then RiskLevel.high
  else if Nat.leb 2 riskScore then RiskLevel.moderate
  else RiskLevel.low.

Record RiskCounts := {
  low : nat;
  moderate : nat;
  high : nat;
  veryHigh : nat
}.

(** The body of the [forEach] of [calculateRiskCounts]: the [switch] has
    the four cases below and no default. *)
Definition countItem (counts : RiskCounts) (item : Item) : RiskCounts :=
  match assessRiskLevel item with
  | RiskLevel.low =>
      {| low := S (low counts); moderate := moderate counts;
         high := high counts; veryHigh := veryHigh counts |}
  | RiskLevel.moderate =>
      {| low := low counts; moderate := S (moderate counts);
         high := high counts; veryHigh := veryHigh counts |}
  | RiskLevel.high =>
      {| low := low counts; moderate := moderate counts;
         high := S (high counts); veryHigh := veryHigh counts |}
  | RiskLevel.very_high =>
      {| low := low counts; moderate := moderate counts;
         high := high counts; veryHigh := S (veryHigh counts) |}
  | RiskLevel.low_moderate => counts
  end.

Definition calculateRiskCounts (data : list Item) : RiskCounts :=
  fold_left countItem data {| low := 0; moderate := 0; high := 0; veryHigh := 0 |}.

(** The [data] array of the doughnut chart. *)
Definition prepareRiskStratificationData (data : list Item) : list nat :=
  let riskCounts := calculateRiskCounts data in
  [ low riskCounts; moderate riskCounts; high riskCounts; veryHigh riskCounts ].

(** [v || null]: a sample value, or [null] for a gap. *)
Definition orNull (v : JS.num) : option float := if JS.truthy v then v else None.

Record Dataset := {
  label : string;
  data : list (option float)
}.

Record ChartData := {
  labels : list string;
  datasets : list Dataset
}.

Definition cuffValue (f : BloodPressure -> float) (item : Item) : JS.num :=
  match bloodPressure (reading item) with
  | Some bp => Some (f bp)
  | None => None
  end.

Definition prepareDualAxisData (items : list Item) : ChartData :=
  {| labels := map timestamp items;
     datasets :=
       [ {| label := "收縮壓"; data := map (fun item => orNull (cuffValue systolic item)) items |};
         {| label := "舒張壓"; data := map (fun item => orNull (cuffValue diastolic item)) items |};
         {| label := "脈搏"; data := map (fun item => orNull (pulseSource (reading item))) items |} ] |}.

End ProfessionalVisualization.

Module Viz := ProfessionalVisualization.

(* ================================================================== *)
(** ** The message sent to the chat assistant

    [buildEnhancedMessage] and [getFrequencyText] of the chat front end.
    The stored field values are of a type [Value]; [show] is their rendering
    inside a template literal. *)

Module AiChat.

Definition newline : string := String (Ascii.ascii_of_nat 10) EmptyString.

Definition frequencyMap : list (string * string) :=
  [ ("daily", "每日"); ("weekly", "每週"); ("monthly", "每月"); ("custom", "自定義") ]%string.

(** [frequencyMap[frequency] || frequency] *)
Definition getFrequencyText (frequency : string) : string :=
  match lookup frequencyMap frequency with
  | Some text => text
  | None => frequency
  end.

Section Message.

Variable Value : Type.
Variable show : Value -> string.

Record BloodPressureEntry := {
  systolic : Value; diastolic : Value; pulse : Value; bpTime : Value
}.

Record SpO2Entry := {
  percent : Value; pi : Value; pr : Value; spo2Time : Value
}.

Record TemperatureEntry := {
  value : Value; location : Value; tempTime : Value
}.

Record DeviceData := {
  bloodPressure : option BloodPressureEntry;
  spO2 : option SpO2Entry;
  temperature : option TemperatureEntry
}.

Record Medication := {
  name : Value; dosage : Value; time : Value;
  frequency : string; status : string
}.

Record UserHealthData := {
  deviceData : option DeviceData;
  medications : list Medication;
  lastUpdate : Value
}.

(** [deviceData && (bloodPressure || spO2 || temperature)] *)
Definition hasDeviceData (healthData : UserHealthData) : bool :=
  match deviceData healthData with
  | Some d => JS.present (bloodPressure d) || JS.present (spO2 d) || JS.present (temperature d)
  | None => false
  end.

Definition medicationLine (med : Medication) : string :=
  ("- " ++ show (name med) ++ "：" ++ show (dosage med) ++ "，" ++ show (time med) ++ "，"
   ++ getFrequencyText (frequency med) ++ newline)%string.

(** The [forEach] over the medications: a line for each active one. *)
Definition medicationLines (meds : list Medication) : string :=
  fold_left (fun message med =>
               if String.eqb (status med) "active"
               then (message ++ medicationLine med)%string else message)
            meds EmptyString.

Definition buildEnhancedMessage (userMessage : string) (healthData : UserHealthData) : string :=
  match deviceData healthData with
  | Some d =>
      if JS.present (bloodPressure d) || JS.present (spO2 d) || JS.present (temperature d) then
        (userMessage ++ newline ++ newline ++ "我的健康數據：" ++ newline
         ++ match bloodPressure d with
            | Some bp =>
                "- 血壓：" ++ show (systolic bp) ++ "/" ++ show (diastolic bp)
                ++ " mmHg，脈搏：" ++ show (pulse bp) ++ " bpm（" ++ show (bpTime bp) ++ "）"
                ++ newline
            | None => ""
            end
         ++ match spO2 d with
            | Some s =>
                "- 血氧飽和度：" ++ show (percent s) ++ "%，灌注指數：" ++ show (pi s)
                ++ "%，脈搏率：" ++ show (pr s) ++ " bpm（" ++ show (spo2Time s) ++ "）" ++ newline
            | None => ""
            end
         ++ match temperature d with
            | Some t =>
                "- 體溫：" ++ show (value t) ++ "°C（" ++ show (location t) ++ "，"
                ++ show (tempTime t) ++ "）" ++ newline
            | None => ""
            end
         ++ match medications healthData with
            | [] => ""
            | _ :: _ =>
                newline ++ "我的用藥情況：" ++ newline ++ medicationLines (medications healthData)
            end
         ++ newline ++ "數據更新時間：" ++ show (lastUpdate healthData))%string
      else
        (userMessage ++ newline ++ newline
         ++ "注意：我還沒有錄入健康數據，請先使用智能設備數據錄入功能記錄您的健康狀況。")%string
  | None =>
      (userMessage ++ newline ++ newline
       ++ "注意：我還沒有錄入健康數據，請先使用智能設備數據錄入功能記錄您的健康狀況。")%string
  end.

End Message.

End AiChat.

(* ================================================================== *)
(** ** Order facts about binary64 comparison

    [<?] and [<=?] are specified by [SFcompare] on the decoded value, which
    orders by sign, then exponent, then mantissa. *)

Ltac order_cases :=
  change (PosDef.Pos.compare_cont Eq) with Pos.compare in *;
  repeat match goal with
  | |- context [ (?a ?= ?b)%Z ] => destruct (Z.compare_spec a b)
  | H : context [ (?a ?= ?b)%Z ] |- _ => destruct (Z.compare_spec a b)
  | |- context [ (?a ?= ?b)%positive ] => destruct (Pos.compare_spec a b)
  | H : context [ (?a ?= ?b)%positive ] |- _ => destruct (Pos.compare_spec a b)
  end;
  simpl in *; subst; try congruence; try lia.

Lemma SFcompare_lt_trans (a b c : spec_float) :
  SFcompare a b = Some Lt -> SFcompare b c = Some Lt -> SFcompare a c = Some Lt.
Proof.
  destruct a as [[]|[]| |[] m1 e1], b as [[]|[]| |[] m2 e2], c as [[]|[]| |[] m3 e3];
    simpl; try congruence; intros H1 H2; order_cases.
Qed.

Lemma SFcompare_eq_l (a b c : spec_float) (x : comparison) :
  SFcompare a b = Some Eq -> SFcompare b c = Some x -> SFcompare a c = Some x.
Proof.
  destruct a as [[]|[]| |[] m1 e1], b as [[]|[]| |[] m2 e2], c as [[]|[]| |[] m3 e3];
    simpl; try congruence; intros H1 H2; order_cases.
Qed.

Lemma SFcompare_eq_r (a b c : spec_float) (x : comparison) :
  SFcompare a b = Some x -> SFcompare b c = Some Eq -> SFcompare a c = Some x.
Proof.
  destruct a as [[]|[]| |[] m1 e1], b as [[]|[]| |[] m2 e2], c as [[]|[]| |[] m3 e3];
    simpl; try congruence; intros H1 H2; order_cases.
Qed.

Lemma SFcompare_irrefl (a : spec_float) : SFcompare a a <> Some Lt.
Proof.
  destruct a as [[]|[]| |[] m1 e1]; simpl; try congruence; order_cases.
Qed.

Lemma ltb_trans (x y z : float) :
  (x <? y) = true -> (y <? z) = true -> (x <? z) = true.
Proof.
  rewrite !ltb_spec. unfold SFltb.
  destruct (SFcompare (Prim2SF x) (Prim2SF y)) as [[]|] eqn:Hxy; try discriminate.
  destruct (SFcompare (Prim2SF y) (Prim2SF z)) as [[]|] eqn:Hyz; try discriminate.
  intros _ _. now rewrite (SFcompare_lt_trans _ _ _ Hxy Hyz).
Qed.

Lemma leb_trans (x y z : float) :
  (x <=? y) = true -> (y <=? z) = true -> (x <=? z) = true.
Proof.
  rewrite !leb_spec. unfold SFleb.
  destruct (SFcompare (Prim2SF x) (Prim2SF y)) as [[]|] eqn:Hxy; try discriminate;
  destruct (SFcompare (Prim2SF y) (Prim2SF z)) as [[]|] eqn:Hyz; try discriminate; intros _ _.
  - now rewrite (SFcompare_eq_l _ _ _ _ Hxy Hyz).
  - now rewrite (SFcompare_eq_l _ _ _ _ Hxy Hyz).
  - now rewrite (SFcompare_eq_r _ _ _ _ Hxy Hyz).
  - now rewrite (SFcompare_lt_trans _ _ _ Hxy Hyz).
Qed.

Lemma ltb_irrefl (x : float) : (x <? x) = false.
Proof.
  rewrite ltb_spec. unfold SFltb.
  destruct (SFcompare (Prim2SF x) (Prim2SF x)) as [[]|] eqn:H; try reflexivity.
  now destruct (SFcompare_irrefl _ H).
Qed.

Lemma SFcompare_swap (a b : spec_float) :
  SFcompare b a = option_map CompOpp (SFcompare a b).
Proof.
  destruct a as [[]|[]| |[] m1 e1], b as [[]|[]| |[] m2 e2]; simpl; try reflexivity;
    change (PosDef.Pos.compare_cont Eq) with Pos.compare;
    rewrite (Z.compare_antisym e1 e2), (Pos.compare_antisym m1 m2);
    destruct (e1 ?= e2)%Z; simpl; try reflexivity;
    destruct (m1 ?= m2)%positive; reflexivity.
Qed.

Lemma not_nan_decoded (x : float) : is_nan x = false -> Prim2SF x <> S754_nan.
Proof.
  unfold is_nan. rewrite FloatAxioms.eqb_spec. intros H E. rewrite E in H. discriminate.
Qed.

Lemma ltb_leb (x y : float) : (x <? y) = true -> (x <=? y) = true.
Proof.
  rewrite ltb_spec, leb_spec. unfold SFltb, SFleb.
  now destruct (SFcompare (Prim2SF x) (Prim2SF y)) as [[]|].
Qed.

(** The order is total away from NaN. *)
Lemma not_ltb_leb (x y : float) :
  is_nan x = false -> is_nan y = false -> (x <? y) = false -> (y <=? x) = true.
Proof.
  intros Hx Hy. apply not_nan_decoded in Hx, Hy.
  rewrite ltb_spec, leb_spec. unfold SFltb, SFleb.
  rewrite (SFcompare_swap (Prim2SF x) (Prim2SF y)).
  destruct (Prim2SF x) as [[]|[]| |[] m1 e1], (Prim2SF y) as [[]|[]| |[] m2 e2];
    try congruence; simpl; try congruence;
    destruct (e1 ?= e2)%Z; simpl; try congruence;
    destruct (PosDef.Pos.compare_cont Eq m1 m2); simpl; congruence.
Qed.

(** A value above 120 is above 100. *)
Lemma above_120_above_100 (p : float) : (p >? 120) = true -> (p >? 100) = true.
Proof. unfold JS.gtb. apply ltb_trans. reflexivity. Qed.

(** A value below 50 is not above 100. *)
Lemma below_50_not_above_100 (p : float) : (p <? 50) = true -> (p >? 100) = false.
Proof.
  unfold JS.gtb. intros H.
  destruct (100 <? p) eqn:E; [|reflexivity].
  assert (H50 : (p <? 100) = true) by (apply (ltb_trans p 50 100); [exact H | reflexivity]).
  pose proof (ltb_trans _ _ _ H50 E) as Hpp. now rewrite ltb_irrefl in Hpp.
Qed.

(** A value above 120 is neither a zero nor NaN. *)
Lemma above_120_truthy (p : float) : (p >? 120) = true -> JS.truthy (Some p) = true.
Proof.
  unfold JS.gtb, JS.truthy, is_zero, is_nan.
  rewrite ltb_spec, !FloatAxioms.eqb_spec.
  let v := eval vm_compute in (Prim2SF 120) in change (Prim2SF 120) with v.
  let v := eval vm_compute in (Prim2SF zero) in change (Prim2SF zero) with v.
  destruct (Prim2SF p) as [[]|[]| |[] m e]; cbn; try discriminate; intros _;
    try reflexivity.
  change (PosDef.Pos.compare_cont Eq) with Pos.compare.
  now rewrite Z.compare_refl, Pos.compare_refl.
Qed.

(* ================================================================== *)
(** ** Pulse classification *)

(** The evaluator's own pulse classifier follows the table: below 50
    bradycardia/moderate, above 120 severe_tachycardia/high, above 100
    tachycardia/moderate, otherwise normal/low. *)
Lemma synergy_assessPulse_table (p : float) :
  ((p <? 50) = true ->
     TemperaturePulseSynergyModel.assessPulse p =
     {| TemperaturePulseSynergyModel.category := Category.bradycardia;
        TemperaturePulseSynergyModel.riskLevel := RiskLevel.moderate;
        TemperaturePulseSynergyModel.score := 0.4 |}) /\
  ((p >? 120) = true ->
     TemperaturePulseSynergyModel.assessPulse p =
     {| TemperaturePulseSynergyModel.category := Category.severe_tachycardia;
        TemperaturePulseSynergyModel.riskLevel := RiskLevel.high;
        TemperaturePulseSynergyModel.score := 0.2 |}) /\
  ((p >? 100) = true -> (p >? 120) = false ->
     TemperaturePulseSynergyModel.assessPulse p =
     {| TemperaturePulseSynergyModel.category := Category.tachycardia;
        TemperaturePulseSynergyModel.riskLevel := RiskLevel.moderate;
        TemperaturePulseSynergyModel.score := 0.6 |}) /\
  ((p <? 50) = false -> (p >? 100) = false ->
     TemperaturePulseSynergyModel.assessPulse p =
     {| TemperaturePulseSynergyModel.category := Category.normal;
        TemperaturePulseSynergyModel.riskLevel := RiskLevel.low;
        TemperaturePulseSynergyModel.score := 1.0 |}).
Proof.
  unfold TemperaturePulseSynergyModel.assessPulse.
  repeat split.
  - intros ->. reflexivity.
  - intros H. pose proof (above_120_above_100 p H) as H100.
    destruct (p <? 50) eqn:E.
    + rewrite (below_50_not_above_100 p E) in H100. discriminate.
    + now rewrite H.
  - intros H100 H120.
    destruct (p <? 50) eqn:E.
    + rewrite (below_50_not_above_100 p E) in H100. discriminate.
    + now rewrite H120, H100.
  - intros H50 H100. rewrite H50.
    destruct (p >? 120) eqn:E.
    + rewrite (above_120_above_100 p E) in H100. discriminate.
    + now rewrite H100.
Qed.

(** What the public classifier does on a truthy value: the [> 100] test
    comes before the [> 120] test. *)
Lemma assessPulse_cases (p : float) :
  JS.truthy (Some p) = true ->
  category (assessPulse (Some p)) =
  Some (if p <? 50 then Category.bradycardia
        else if p >? 100 then Category.tachycardia
        else Category.normal).
Proof.
  intros T. unfold assessPulse. rewrite T. simpl.
  destruct (p <? 50); [reflexivity|].
  destruct (p >? 100) eqn:E100; [reflexivity|].
  destruct (p >? 120) eqn:E120; [|reflexivity].
  rewrite (above_120_above_100 p E120) in E100. discriminate.
Qed.

(** C2 (the code departs from the claim).  The claim asks that a pulse above
    120 be classified severe_tachycardia/high.  The public classifier
    [assessPulse] gives tachycardia/moderate for 130 and for every other
    value above 120, and returns severe_tachycardia for no input at all,
    while the evaluator's classifier gives severe_tachycardia/high for the
    same value. *)
Theorem C2_assessPulse_never_severe :
  assessPulse (Some 130) =
    Classified Category.tachycardia RiskLevel.moderate 130 "心動過速，建議監測" /\
  (forall p : float, (p >? 120) = true ->
     assessPulse (Some p) =
       Classified Category.tachycardia RiskLevel.moderate p "心動過速，建議監測") /\
  (forall pulseData : JS.num,
     category (assessPulse pulseData) <> Some Category.severe_tachycardia) /\
  TemperaturePulseSynergyModel.assessPulse 130 =
    {| TemperaturePulseSynergyModel.category := Category.severe_tachycardia;
       TemperaturePulseSynergyModel.riskLevel := RiskLevel.high;
       TemperaturePulseSynergyModel.score := 0.2 |}.
Proof.
  split; [reflexivity|]. split; [|split; [|reflexivity]].
  - intros p H. unfold assessPulse.
    rewrite (above_120_truthy p H). cbn [negb JS.to_number].
    pose proof (above_120_above_100 p H) as H100.
    destruct (p <? 50) eqn:E.
    + rewrite (below_50_not_above_100 p E) in H100. discriminate.
    + now rewrite H100.
  - intros pulseData. destruct (JS.truthy pulseData) eqn:T.
    + destruct pulseData as [p|]; [|discriminate].
      rewrite (assessPulse_cases p T).
      destruct (p <? 50); [discriminate|]. destruct (p >? 100); discriminate.
    + unfold assessPulse. rewrite T. discriminate.
Qed.

(** C10.  A pulse of 0 is handled as missing: the classifier returns the
    [no_data] sentinel for it (no category, so not bradycardia), and a cuff
    pulse of 0, although present, gives way to the oximeter's pulse rate,
    which is then the value classified. *)
Theorem C10_zero_pulse_is_missing :
  assessPulse (Some 0) = NoData Status.no_data "無脈搏數據" /\
  category (assessPulse (Some 0)) = None /\
  (forall (s d : float) (oximeter : option SpO2) (t : option Temperature),
     let cuff := {| systolic := s; diastolic := d; pulse := Some 0 |} in
     let reading := {| bloodPressure := Some cuff; spO2 := oximeter; temperature := t |} in
     let rate := match oximeter with Some o => pr o | None => None end in
     JS.present (pulse cuff) = true /\
     pulseSource reading = rate /\
     bvs_pulse (assessBasicVitalSigns reading) = assessPulse rate) /\
  bvs_pulse (assessBasicVitalSigns
    {| bloodPressure := Some {| systolic := 120; diastolic := 80; pulse := Some 0 |};
       spO2 := Some {| percent := 98; pi := 1.5; pr := Some 72 |};
       temperature := None |}) =
    Classified Category.normal RiskLevel.low 72 "脈搏正常".
Proof.
  split; [reflexivity|]. split; [reflexivity|]. split; [|reflexivity].
  intros s d oximeter t cuff reading rate. repeat split.
Qed.

(* ================================================================== *)
(** ** Blood-pressure classification *)

(** The category and risk level the classifier computes for a reading
    that has a blood-pressure substructure. *)
Lemma assessBloodPressure_classified (bp : BloodPressure) :
  exists c r,
    assessBloodPressure (Some bp) = Classified c r bp (getBloodPressureAssessment c).
Proof.
  unfold assessBloodPressure.
  destruct ((systolic bp >=? 180) || (diastolic bp >=? 110)); [eauto|].
  destruct ((systolic bp >=? 160) || (diastolic bp >=? 100)); [eauto|].
  destruct ((systolic bp >=? 140) || (diastolic bp >=? 90)); [eauto|].
  destruct ((systolic bp >=? 130) || (diastolic bp >=? 85)); eauto.
Qed.

(** A value at or above a threshold is at or above every lower one. *)
Lemma geb_weaken (lo hi v : float) :
  (lo <=? hi) = true -> (v >=? hi) = true -> (v >=? lo) = true.
Proof. unfold JS.geb. apply leb_trans. Qed.

Ltac thresholds v :=
  pose proof (geb_weaken 160 180 v eq_refl);
  pose proof (geb_weaken 140 160 v eq_refl);
  pose proof (geb_weaken 130 140 v eq_refl);
  pose proof (geb_weaken 100 110 v eq_refl);
  pose proof (geb_weaken 90 100 v eq_refl);
  pose proof (geb_weaken 85 90 v eq_refl).

Ltac absurd_order :=
  repeat match goal with
  | H : ?a = true -> _, E : ?a = true |- _ => specialize (H E)
  end; congruence.

(** C5.  The classifier returns the more severe of the category of the
    systolic value and the category of the diastolic value, with that
    category's risk level; said as an or-rule, the result is at least a
    given stage exactly when the systolic or the diastolic value reaches
    that stage's threshold.  185/115 is stage3_hypertension/very_high. *)
Theorem C5_more_severe_of_the_two (bp : BloodPressure) :
  let a := assessBloodPressure (Some bp) in
  let s := systolic bp in
  let d := diastolic bp in
  let c := Spec.moreSevere (Spec.systolicCategory s) (Spec.diastolicCategory d) in
  category a = Some c /\
  riskLevel a = Some (Spec.riskOf c) /\
  (4 <= Spec.severity c <-> (s >=? 180) || (d >=? 110) = true) /\
  (3 <= Spec.severity c <-> (s >=? 160) || (d >=? 100) = true) /\
  (2 <= Spec.severity c <-> (s >=? 140) || (d >=? 90) = true) /\
  (1 <= Spec.severity c <-> (s >=? 130) || (d >=? 85) = true) /\
  (forall p : JS.num,
     let a' := assessBloodPressure (Some {| systolic := 185; diastolic := 115; pulse := p |}) in
     category a' = Some Category.stage3_hypertension /\
     riskLevel a' = Some RiskLevel.very_high).
Proof.
  cbv zeta. unfold assessBloodPressure, Spec.systolicCategory, Spec.diastolicCategory,
    Spec.categoryBy.
  thresholds (systolic bp). thresholds (diastolic bp).
  destruct (systolic bp >=? 180) eqn:S3; destruct (systolic bp >=? 160) eqn:S2;
  destruct (systolic bp >=? 140) eqn:S1; destruct (systolic bp >=? 130) eqn:S0;
  try absurd_order;
  destruct (diastolic bp >=? 110) eqn:D3; destruct (diastolic bp >=? 100) eqn:D2;
  destruct (diastolic bp >=? 90) eqn:D1; destruct (diastolic bp >=? 85) eqn:D0;
  try absurd_order;
  cbn; repeat split; try reflexivity; try lia; try discriminate; intros; try lia.
Qed.

(** A threshold reached by a value is reached by every larger value. *)
Lemma geb_mono (k v1 v2 : float) :
  (v1 <=? v2) = true -> (v1 >=? k) = true -> (v2 >=? k) = true.
Proof. unfold JS.geb. intros H12 Hk. exact (leb_trans k v1 v2 Hk H12). Qed.

(** C8.  The classifier answers for every blood-pressure substructure, and
    with the diastolic value fixed a larger systolic value never gets a
    lower risk level in the order
    low < low_moderate < moderate < high < very_high. *)
Theorem C8_monotonic_in_systolic (s1 s2 d : float) (p1 p2 : JS.num) :
  (s1 <=? s2) = true ->
  match riskLevel (assessBloodPressure (Some {| systolic := s1; diastolic := d; pulse := p1 |})),
        riskLevel (assessBloodPressure (Some {| systolic := s2; diastolic := d; pulse := p2 |}))
  with
  | Some r1, Some r2 => RiskLevel.ordinal r1 <= RiskLevel.ordinal r2
  | _, _ => False
  end.
Proof.
  intros Hle. unfold assessBloodPressure. cbn [systolic diastolic].
  pose proof (geb_mono 180 s1 s2 Hle) as M3.
  pose proof (geb_mono 160 s1 s2 Hle) as M2.
  pose proof (geb_mono 140 s1 s2 Hle) as M1.
  pose proof (geb_mono 130 s1 s2 Hle) as M0.
  thresholds s2.
  destruct (s2 >=? 180) eqn:B3; destruct (s2 >=? 160) eqn:B2;
  destruct (s2 >=? 140) eqn:B1; destruct (s2 >=? 130) eqn:B0;
  try absurd_order;
  destruct (s1 >=? 180) eqn:A3; destruct (s1 >=? 160) eqn:A2;
  destruct (s1 >=? 140) eqn:A1; destruct (s1 >=? 130) eqn:A0;
  try absurd_order;
  (destruct (d >=? 110); [cbn; lia|]);
  (destruct (d >=? 100); [cbn; lia|]);
  (destruct (d >=? 90); [cbn; lia|]);
  destruct (d >=? 85); cbn; lia.
Qed.

Lemma C8_monotonic_in_systolic_witness :
  (135 <=? 165) = true /\
  match riskLevel (assessBloodPressure (Some {| systolic := 135; diastolic := 80; pulse := None |})),
        riskLevel (assessBloodPressure (Some {| systolic := 165; diastolic := 80; pulse := None |}))
  with
  | Some r1, Some r2 => RiskLevel.ordinal r1 <= RiskLevel.ordinal r2
  | _, _ => False
  end.
Proof.
  split; [reflexivity | apply (C8_monotonic_in_systolic 135 165 80 None None); reflexivity].
Defined.

(* ================================================================== *)
(** ** Risk stratification *)

(** The test [grade === g]. *)
Lemma isGrade_true (g g' : Grade.t) : isGrade g g' = true <-> g = g'.
Proof. destruct g, g'; cbn; split; intros H; congruence. Qed.

(** C6.  The risk category is [very_high] exactly for grade critical or a
    score below 0.4; otherwise [high] exactly for grade poor or a score
    below 0.6; otherwise [moderate] exactly for grade fair or a score below
    0.8; otherwise [low].  The follow-up interval and the recommendation
    list are those fixed for the category: daily, weekly, monthly,
    quarterly. *)
Theorem C6_risk_stratification (cs : CompositeScore) :
  let r := performRiskStratification cs in
  let critical := grade cs = Grade.critical \/ (score cs <? 0.4) = true in
  let poor := grade cs = Grade.poor \/ (score cs <? 0.6) = true in
  let fair := grade cs = Grade.fair \/ (score cs <? 0.8) = true in
  (rs_category r = "very_high"%string <-> critical) /\
  (rs_category r = "high"%string <-> ~ critical /\ poor) /\
  (rs_category r = "moderate"%string <-> ~ critical /\ ~ poor /\ fair) /\
  (rs_category r = "low"%string <-> ~ critical /\ ~ poor /\ ~ fair) /\
  ((rs_category r = "very_high" /\ rs_followUpInterval r = "每日" /\
    rs_recommendations r = ["立即就醫"; "密切監測生命體徵"; "避免劇烈活動"]) \/
   (rs_category r = "high" /\ rs_followUpInterval r = "每週" /\
    rs_recommendations r = ["建議就醫諮詢"; "增加監測頻率"; "調整生活方式"]) \/
   (rs_category r = "moderate" /\ rs_followUpInterval r = "每月" /\
    rs_recommendations r = ["定期監測"; "改善生活習慣"; "預防性措施"]) \/
   (rs_category r = "low" /\ rs_followUpInterval r = "每季度" /\
    rs_recommendations r = ["維持良好習慣"; "定期體檢"; "持續監測"]))%string /\
  rs_level r = grade cs /\ rs_score r = score cs.
Proof.
  cbv zeta. unfold performRiskStratification.
  destruct (grade cs) eqn:G;
  destruct (score cs <? 0.4) eqn:S4; destruct (score cs <? 0.6) eqn:S6;
  destruct (score cs <? 0.8) eqn:S8; cbn;
  repeat match goal with
  | |- _ /\ _ => split
  | |- _ <-> _ => split; intros
  end;
  try reflexivity; try discriminate; try tauto;
  try (intuition (discriminate || congruence));
  auto 10.
Qed.

(* ================================================================== *)
(** ** Ranges of the scores *)

(** The clamp that ends every rubric sends any number to [0,1]. *)
Lemma clamp01_in_range (x : float) :
  is_nan x = false -> (0 <=? clamp01 x) = true /\ (clamp01 x <=? 1) = true.
Proof.
  intros Hx. unfold clamp01.
  assert (Hm : is_nan (JS.min 1 x) = false /\ (JS.min 1 x <=? 1) = true).
  { unfold JS.min. rewrite Hx. change (is_nan 1) with false. cbn [orb].
    destruct (1 <? x) eqn:E1; [split; reflexivity|].
    destruct (x <? 1) eqn:E2; [split; [exact Hx | now apply ltb_leb]|].
    change (get_sign 1) with false. cbv iota.
    split; [exact Hx | now apply not_ltb_leb]. }
  destruct Hm as [Hn Hle]. set (m := JS.min 1 x) in *.
  unfold JS.max. rewrite Hn. change (is_nan 0) with false. cbn [orb].
  destruct (0 <? m) eqn:E1; [split; [now apply ltb_leb | exact Hle]|].
  destruct (m <? 0) eqn:E2; [split; reflexivity|].
  change (get_sign 0) with false. cbv iota. split; reflexivity.
Qed.

Lemma stability_score_listed (healthData : HealthData) :
  exists x, BloodPressureStabilityModel.score (BloodPressureStabilityModel.assess healthData) = Some x
            /\ In x Ranges.stabilityScores.
Proof.
  unfold BloodPressureStabilityModel.assess.
  destruct (bloodPressure healthData) as [bp|]; cbn [BloodPressureStabilityModel.score].
  - eexists. split; [reflexivity|].
    unfold BloodPressureStabilityModel.calculateStabilityScore.
    destruct (BloodPressureStabilityModel.calculateVariability bp) as [coef i].
    cbn [BloodPressureStabilityModel.interpretation].
    right. unfold BloodPressureStabilityModel.calculateStabilityScore.
    destruct (BloodPressureStabilityModel.calculateStability bp), i;
      cbn -[clamp01 PrimFloat.add PrimFloat.sub]; tauto.
  - exists 0. split; [reflexivity | now left].
Qed.

Lemma perfusion_score_listed (healthData : HealthData) :
  exists x, BloodOxygenPerfusionModel.score (BloodOxygenPerfusionModel.assess healthData) = Some x
            /\ In x Ranges.perfusionScores.
Proof.
  unfold BloodOxygenPerfusionModel.assess.
  destruct (spO2 healthData) as [s|]; cbn [BloodOxygenPerfusionModel.score].
  - eexists. split; [reflexivity|].
    unfold BloodOxygenPerfusionModel.calculatePerfusionScore,
      BloodOxygenPerfusionModel.calculateEfficiency.
    cbn [BloodOxygenPerfusionModel.interpretation].
    right. unfold BloodOxygenPerfusionModel.calculatePerfusionScore.
    destruct (BloodOxygenPerfusionModel.calculatePerfusion s);
      destruct (percent s / 100 >=? 0.95); [| destruct (percent s / 100 >=? 0.90) | | destruct (percent s / 100 >=? 0.90) | | destruct (percent s / 100 >=? 0.90) | | destruct (percent s / 100 >=? 0.90)];
      cbn -[clamp01 PrimFloat.add PrimFloat.sub]; tauto.
  - exists 0. split; [reflexivity | now left].
Qed.

Lemma synergy_temperature_listed (tempData : Temperature) :
  In (TemperaturePulseSynergyModel.assessTemperature tempData) Ranges.temperatureOutcomes.
Proof.
  unfold TemperaturePulseSynergyModel.assessTemperature.
  destruct (value tempData >? max (rangeFor (location tempData)) + 0.5); [cbn; tauto|].
  destruct (value tempData >? max (rangeFor (location tempData))); [cbn; tauto|].
  destruct (value tempData <? min (rangeFor (location tempData)) - 0.5); [cbn; tauto|].
  destruct (value tempData <? min (rangeFor (location tempData))); cbn; tauto.
Qed.

Lemma synergy_pulse_listed (pulseData : float) :
  In (TemperaturePulseSynergyModel.assessPulse pulseData) Ranges.pulseOutcomes.
Proof.
  unfold TemperaturePulseSynergyModel.assessPulse.
  destruct (pulseData <? 50); [cbn; tauto|].
  destruct (pulseData >? 120); [cbn; tauto|].
  destruct (pulseData >? 100); cbn; tauto.
Qed.

Lemma synergy_score_listed (healthData : HealthData) :
  exists x, TemperaturePulseSynergyModel.resultScore (TemperaturePulseSynergyModel.assess healthData) = Some x
            /\ In x Ranges.synergyScores.
Proof.
  unfold TemperaturePulseSynergyModel.assess.
  destruct (temperature healthData) as [t|].
  - destruct (JS.truthy (pulseSource healthData)); cbn [negb TemperaturePulseSynergyModel.resultScore].
    + eexists. split; [reflexivity|]. right.
      apply in_flat_map. exists (TemperaturePulseSynergyModel.assessTemperature t).
      split; [apply synergy_temperature_listed|].
      apply in_map_iff.
      exists (TemperaturePulseSynergyModel.assessPulse (JS.to_number (pulseSource healthData))).
      split; [reflexivity | apply synergy_pulse_listed].
    + exists 0. split; [reflexivity | now left].
  - exists 0. split; [reflexivity | now left].
Qed.

(** The composite reads nothing of the sub-model objects but their scores. *)
Lemma composite_reads_scores (weights : ParameterCustomization.Weights) (a : Assessments)
    (x1 x2 x3 : float) :
  BloodPressureStabilityModel.score (bpStabilityAssessment a) = Some x1 ->
  BloodOxygenPerfusionModel.score (spo2PerfusionAssessment a) = Some x2 ->
  TemperaturePulseSynergyModel.resultScore (tempPulseAssessment a) = Some x3 ->
  calculateCompositeScore weights a = Ranges.compositeOf weights x1 x2 x3.
Proof.
  intros H1 H2 H3.
  unfold Ranges.compositeOf, calculateCompositeScore, totals.
  cbn [bpStabilityAssessment spo2PerfusionAssessment tempPulseAssessment
       BloodPressureStabilityModel.score BloodOxygenPerfusionModel.score
       TemperaturePulseSynergyModel.resultScore].
  now rewrite H1, H2, H3.
Qed.

Lemma all_default_composites_in_range :
  forallb (fun x1 =>
    forallb (fun x2 =>
      forallb (fun x3 =>
        Ranges.compositeInRange
          (Ranges.compositeOf ParameterCustomization.defaultWeights x1 x2 x3))
        Ranges.synergyScores)
      Ranges.perfusionScores)
    Ranges.stabilityScores = true.
Proof. vm_compute. reflexivity. Qed.

Lemma forallb3_forall {A B C : Type} (f : A -> B -> C -> bool)
    (la : list A) (lb : list B) (lc : list C) :
  forallb (fun a => forallb (fun b => forallb (fun c => f a b c) lc) lb) la = true ->
  forall a b c, In a la -> In b lb -> In c lc -> f a b c = true.
Proof.
  intros H a b c Ha Hb Hc.
  rewrite forallb_forall in H. specialize (H a Ha).
  rewrite forallb_forall in H. specialize (H b Hb).
  rewrite forallb_forall in H. exact (H c Hc).
Qed.

Lemma default_composite_in_range (x1 x2 x3 : float) :
  In x1 Ranges.stabilityScores -> In x2 Ranges.perfusionScores -> In x3 Ranges.synergyScores ->
  Ranges.compositeInRange (Ranges.compositeOf ParameterCustomization.defaultWeights x1 x2 x3) = true.
Proof.
  exact (forallb3_forall
           (fun a b c => Ranges.compositeInRange
                           (Ranges.compositeOf ParameterCustomization.defaultWeights a b c))
           _ _ _ all_default_composites_in_range x1 x2 x3).
Qed.

Lemma all_listed_scores_in_range :
  forallb Ranges.in01 (Ranges.stabilityScores ++ Ranges.perfusionScores ++ Ranges.synergyScores) = true.
Proof. vm_compute. reflexivity. Qed.

Lemma listed_score_in_range (x : float) :
  In x Ranges.stabilityScores \/ In x Ranges.perfusionScores \/ In x Ranges.synergyScores ->
  (0 <=? x) = true /\ (x <=? 1) = true.
Proof.
  intros L. apply andb_prop.
  pose proof all_listed_scores_in_range as R.
  rewrite forallb_forall in R. apply R.
  rewrite !in_app_iff. exact L.
Qed.

(** C7.  For every reading, scored with the default weights, the composite
    score lies in [0,1] and the confidence in [0,100], and the score of each
    of the three sub-model evaluators lies in [0,1]. *)
Theorem C7_scores_in_range (healthData : HealthData) :
  let report := generateComprehensiveAssessment ParameterCustomization.defaultWeights healthData in
  let cs := compositeScore report in
  ((0 <=? score cs) = true /\ (score cs <=? 1) = true) /\
  ((0 <=? confidence cs) = true /\ (confidence cs <=? 100) = true) /\
  (exists x, BloodPressureStabilityModel.score (bpStabilityAssessment (subModels report)) = Some x
             /\ (0 <=? x) = true /\ (x <=? 1) = true) /\
  (exists x, BloodOxygenPerfusionModel.score (spo2PerfusionAssessment (subModels report)) = Some x
             /\ (0 <=? x) = true /\ (x <=? 1) = true) /\
  (exists x, TemperaturePulseSynergyModel.resultScore (tempPulseAssessment (subModels report)) = Some x
             /\ (0 <=? x) = true /\ (x <=? 1) = true).
Proof.
  cbv zeta. unfold generateComprehensiveAssessment.
  cbn [compositeScore subModels].
  destruct (stability_score_listed healthData) as (x1 & E1 & L1).
  destruct (perfusion_score_listed healthData) as (x2 & E2 & L2).
  destruct (synergy_score_listed healthData) as (x3 & E3 & L3).
  rewrite (composite_reads_scores _ (subModelAssessments healthData) x1 x2 x3 E1 E2 E3).
  unfold subModelAssessments.
  cbn [bpStabilityAssessment spo2PerfusionAssessment tempPulseAssessment].
  pose proof (default_composite_in_range x1 x2 x3 L1 L2 L3) as C.
  unfold Ranges.compositeInRange, Ranges.in01, Ranges.in0_100 in C.
  apply andb_prop in C. destruct C as [Cs Cc].
  apply andb_prop in Cs. apply andb_prop in Cc.
  split; [exact Cs|]. split; [exact Cc|].
  split; [|split].
  - exists x1. split; [exact E1 | apply listed_score_in_range; tauto].
  - exists x2. split; [exact E2 | apply listed_score_in_range; tauto].
  - exists x3. split; [exact E3 | apply listed_score_in_range; tauto].
Qed.

(* ================================================================== *)
(** ** Missing sub-models in the composite *)

(** Every object a sub-model evaluator returns has a [score], the
    [no_data] and [insufficient_data] objects included, so the composite
    adds all three weights whatever the reading holds. *)
Lemma total_weight_whatever_the_reading (weights : ParameterCustomization.Weights)
    (healthData : HealthData) :
  snd (totals weights (subModelAssessments healthData)) =
  0 + ParameterCustomization.bloodPressureStability weights
    + ParameterCustomization.bloodOxygenPerfusion weights
    + ParameterCustomization.temperaturePulseSynergy weights.
Proof.
  destruct (stability_score_listed healthData) as (x1 & E1 & _).
  destruct (perfusion_score_listed healthData) as (x2 & E2 & _).
  destruct (synergy_score_listed healthData) as (x3 & E3 & _).
  unfold totals, subModelAssessments.
  cbn [bpStabilityAssessment spo2PerfusionAssessment tempPulseAssessment].
  rewrite E1, E2, E3. reflexivity.
Qed.

(** The guard of the scorer does skip an object without a [score]. *)
Lemma accumulate_skips_undefined (t : float * float) (weight : float) :
  accumulate t None weight = t.
Proof. reflexivity. Qed.

(** C1 (the code departs from the claim).  The reading has no SpO2
    substructure.  The perfusion evaluator still returns a score, 0, and the
    composite counts it as a present sub-model: the total weight is 1, not
    the 0.75 of the two sub-models whose input is present, the composite
    score is 0.47 and the confidence 100. *)
Theorem C1_absent_submodel_is_counted :
  let reading := Readings.withoutSpO2 in
  let a := subModelAssessments reading in
  let cs := calculateCompositeScore ParameterCustomization.defaultWeights a in
  spO2 reading = None /\
  BloodOxygenPerfusionModel.score (spo2PerfusionAssessment a) = Some 0 /\
  snd (totals ParameterCustomization.defaultWeights a) = 1 /\
  Spec.presentWeight ParameterCustomization.defaultWeights reading = 0.75 /\
  score cs = 0.47 /\
  confidence cs = 100 /\
  bd_bloodOxygenPerfusion (breakdown cs) = 0.
Proof. vm_compute. repeat split. Qed.

(** C3 (the code departs from the claim).  For the reading with no
    substructure at all the composite score is 0 and nothing is divided by
    zero, the total weight being 1; the confidence is 100, not 0. *)
Theorem C3_empty_reading_full_confidence :
  let a := subModelAssessments Readings.empty in
  let cs := calculateCompositeScore ParameterCustomization.defaultWeights a in
  totals ParameterCustomization.defaultWeights a = (0, 1) /\
  Spec.presentWeight ParameterCustomization.defaultWeights Readings.empty = 0 /\
  score cs = 0 /\
  grade cs = Grade.critical /\
  confidence cs = 100.
Proof. vm_compute. repeat split. Qed.

(* ================================================================== *)
(** ** Temperature 38.2 with pulse 110 *)

Lemma In_push {l : list DataDerivationLogic.Insight} {i : DataDerivationLogic.Insight} :
  In i (DataDerivationLogic.push l (Some i)).
Proof. cbn. apply in_or_app. right. now left. Qed.

(** C4, as stated, fails on the reading with axillary temperature 38.2 and
    cuff pulse 110: the synergy evaluator's correlation is not
    [positive_correlation]. *)
Lemma C4_counterexample :
  ~ ((exists i, In i (DataDerivationLogic.generateInsights Readings.feverish)
                /\ DataDerivationLogic.type i = DataDerivationLogic.metabolic) /\
     (exists t p s x,
        TemperaturePulseSynergyModel.assess Readings.feverish
          = TemperaturePulseSynergyModel.Assessed t p s x /\
        TemperaturePulseSynergyModel.correlation s = Correlation.positive_correlation)).
Proof.
  intros [_ (t & p & s & x & E & C)].
  vm_compute in E. injection E as <- <- <- <-. discriminate C.
Qed.

(** C4, amended.  For every reading whose temperature is 38.2 measured at
    the axilla and whose pulse source gives 110, the derivation engine emits
    a metabolic insight, and the synergy evaluator classifies the
    temperature as high_fever (38.2 is above 37.2 + 0.5) and the pulse as
    tachycardia, so that its correlation is [no_significant_correlation]. *)
Theorem C4_high_fever_with_tachycardia (healthData : HealthData) :
  temperature healthData = Some {| value := 38.2; location := "腋下" |} ->
  pulseSource healthData = Some 110 ->
  (exists i, In i (DataDerivationLogic.generateInsights healthData)
             /\ DataDerivationLogic.type i = DataDerivationLogic.metabolic) /\
  (exists t p s x,
     TemperaturePulseSynergyModel.assess healthData
       = TemperaturePulseSynergyModel.Assessed t p s x /\
     TemperaturePulseSynergyModel.category t = Category.high_fever /\
     TemperaturePulseSynergyModel.category p = Category.tachycardia /\
     TemperaturePulseSynergyModel.correlation s = Correlation.no_significant_correlation).
Proof.
  intros Ht Hp. split.
  - unfold DataDerivationLogic.generateInsights. rewrite Ht, Hp.
    change (JS.truthy (Some 110)) with true. cbv iota.
    change (DataDerivationLogic.deriveMetabolicInsight
              {| value := 38.2; location := "腋下" |} (JS.to_number (Some 110)))
      with (Some {| DataDerivationLogic.type := DataDerivationLogic.metabolic;
                    DataDerivationLogic.insight := "體溫升高且脈搏加快，提示代謝率增加";
                    DataDerivationLogic.confidence := "moderate";
                    DataDerivationLogic.recommendation := "建議監測炎症指標和代謝參數";
                    DataDerivationLogic.reference := "基於《基礎生命體徵臨床解讀指南》第5章";
                    DataDerivationLogic.derivation := "基於體溫和脈搏的協同變化推導代謝狀態" |}).
    eexists. split; [apply In_push | reflexivity].
  - unfold TemperaturePulseSynergyModel.assess. rewrite Ht, Hp.
    change (JS.truthy (Some 110)) with true. cbv iota. cbn [negb].
    do 4 eexists. split; [reflexivity|]. vm_compute. repeat split.
Qed.

Lemma C4_high_fever_with_tachycardia_witness :
  temperature Readings.feverish = Some {| value := 38.2; location := "腋下" |} /\
  pulseSource Readings.feverish = Some 110 /\
  (exists i, In i (DataDerivationLogic.generateInsights Readings.feverish)
             /\ DataDerivationLogic.type i = DataDerivationLogic.metabolic) /\
  (exists t p s x,
     TemperaturePulseSynergyModel.assess Readings.feverish
       = TemperaturePulseSynergyModel.Assessed t p s x /\
     TemperaturePulseSynergyModel.category t = Category.high_fever /\
     TemperaturePulseSynergyModel.category p = Category.tachycardia /\
     TemperaturePulseSynergyModel.correlation s = Correlation.no_significant_correlation).
Proof.
  split; [reflexivity|]. split; [reflexivity|].
  apply (C4_high_fever_with_tachycardia Readings.feverish); reflexivity.
Defined.

(** The correlation is positive for a temperature in the fever tier: 37.5 at
    the axilla with pulse 110. *)
Example mild_fever_positive_correlation :
  exists t p s x,
    TemperaturePulseSynergyModel.assess Readings.mildFever
      = TemperaturePulseSynergyModel.Assessed t p s x /\
    TemperaturePulseSynergyModel.category t = Category.fever /\
    TemperaturePulseSynergyModel.correlation s = Correlation.positive_correlation.
Proof. do 4 eexists. vm_compute. repeat split. Qed.

(* ================================================================== *)
(** ** Chat-relay proxy *)

(** C9.  When the static-file middleware has no file for the two
    pathnames, GET /api/chat is answered with status 405 and a JSON hint and
    GET / with status 200 and the health-check JSON; a POST /api/chat whose
    upstream call fails is answered with a JSON object of the fields
    [message] and [error], under the upstream status when the error carries
    a response and under 500 otherwise (and a call that succeeds is
    answered with the upstream body). *)
Theorem C9_proxy_responses (static : string -> option string)
    (upstream : Proxy.UpstreamCall -> Proxy.Settled) :
  static "/"%string = None ->
  static "/api/chat"%string = None ->
  (forall body auth,
     Proxy.app static upstream
       {| Proxy.method := Proxy.GET; Proxy.path := "/api/chat";
          Proxy.body := body; Proxy.authorization := auth |} =
     {| Proxy.status := 405;
        Proxy.payload := Proxy.JsonBody (Proxy.JObject
          [ ("ok", Proxy.JBool false);
            ("message", Proxy.JString
               "Method Not Allowed. Please POST to /api/chat with { model, messages }.") ]%string) |}) /\
  (forall body auth,
     Proxy.app static upstream
       {| Proxy.method := Proxy.GET; Proxy.path := "/";
          Proxy.body := body; Proxy.authorization := auth |} =
     {| Proxy.status := 200;
        Proxy.payload := Proxy.JsonBody (Proxy.JObject
          [ ("ok", Proxy.JBool true);
            ("message", Proxy.JString
               "Proxy server is running. Use POST /api/chat to send messages.") ]%string) |}) /\
  (forall body auth,
     let response :=
       Proxy.app static upstream
         {| Proxy.method := Proxy.POST; Proxy.path := "/api/chat";
            Proxy.body := body; Proxy.authorization := auth |} in
     match upstream {| Proxy.url := "https://api.deepseek.com/v1/chat/completions";
                       Proxy.data := body;
                       Proxy.contentType := "application/json";
                       Proxy.authorizationHeader := auth |} with
     | Proxy.Fulfilled responseData =>
         response = {| Proxy.status := 200; Proxy.payload := Proxy.JsonBody responseData |}
     | Proxy.RejectedWithResponse responseStatus responseData =>
         response =
         {| Proxy.status := responseStatus;
            Proxy.payload := Proxy.JsonBody (Proxy.JObject
              [ ("message", Proxy.JString "Error proxying to DeepSeek API");
                ("error", responseData) ]%string) |}
     | Proxy.RejectedWithoutResponse message =>
         response =
         {| Proxy.status := 500;
            Proxy.payload := Proxy.JsonBody (Proxy.JObject
              [ ("message", Proxy.JString "Error proxying to DeepSeek API");
                ("error", Proxy.JString message) ]%string) |}
     end).
Proof.
  intros Hroot Hchat. repeat split.
  - intros body auth. unfold Proxy.app. cbn [Proxy.method Proxy.path]. now rewrite Hchat.
  - intros body auth. unfold Proxy.app. cbn [Proxy.method Proxy.path]. now rewrite Hroot.
  - intros body auth. cbv zeta. unfold Proxy.app, Proxy.routes, Proxy.postApiChat.
    cbn [Proxy.method Proxy.path Proxy.body Proxy.authorization].
    change (String.eqb "/api/chat" "/api/chat") with true. cbv iota.
    now destruct (upstream _).
Qed.

(** A deployment with no static file and an upstream that rejects every
    call with status 401. *)
Lemma C9_proxy_responses_witness :
  let static := fun _ : string => @None string in
  let upstream := fun _ : Proxy.UpstreamCall =>
    Proxy.RejectedWithResponse 401 (Proxy.JObject [("error"%string, Proxy.JString "unauthorized")]) in
  static "/"%string = None /\
  static "/api/chat"%string = None /\
  Proxy.status (Proxy.app static upstream
    {| Proxy.method := Proxy.GET; Proxy.path := "/api/chat";
       Proxy.body := Proxy.JNull; Proxy.authorization := None |}) = 405%Z /\
  Proxy.status (Proxy.app static upstream
    {| Proxy.method := Proxy.GET; Proxy.path := "/";
       Proxy.body := Proxy.JNull; Proxy.authorization := None |}) = 200%Z /\
  Proxy.app static upstream
    {| Proxy.method := Proxy.POST; Proxy.path := "/api/chat";
       Proxy.body := Proxy.JNull; Proxy.authorization := None |} =
  {| Proxy.status := 401;
     Proxy.payload := Proxy.JsonBody (Proxy.JObject
       [ ("message", Proxy.JString "Error proxying to DeepSeek API");
         ("error", Proxy.JObject [("error", Proxy.JString "unauthorized")]) ]%string) |}.
Proof.
  intros static upstream.
  destruct (C9_proxy_responses static upstream eq_refl eq_refl) as (Hchat & Hroot & Hpost).
  split; [reflexivity|]. split; [reflexivity|].
  split; [now rewrite Hchat|]. split; [now rewrite Hroot|].
  exact (Hpost Proxy.JNull None).
Defined.


(* ================================================================== *)
(** * Properties of the rest of the code base *)

Lemma ltb_leb_trans (x y z : float) :
  (x <? y) = true -> (y <=? z) = true -> (x <? z) = true.
Proof.
  rewrite !ltb_spec, leb_spec. unfold SFltb, SFleb.
  destruct (SFcompare (Prim2SF x) (Prim2SF y)) as [[]|] eqn:Hxy; try discriminate;
  destruct (SFcompare (Prim2SF y) (Prim2SF z)) as [[]|] eqn:Hyz; try discriminate; intros _ _.
  - now rewrite (SFcompare_eq_r _ _ _ _ Hxy Hyz).
  - now rewrite (SFcompare_lt_trans _ _ _ Hxy Hyz).
Qed.

Lemma leb_ltb_trans (x y z : float) :
  (x <=? y) = true -> (y <? z) = true -> (x <? z) = true.
Proof.
  rewrite !ltb_spec, leb_spec. unfold SFltb, SFleb.
  destruct (SFcompare (Prim2SF x) (Prim2SF y)) as [[]|] eqn:Hxy; try discriminate;
  destruct (SFcompare (Prim2SF y) (Prim2SF z)) as [[]|] eqn:Hyz; try discriminate; intros _ _.
  - now rewrite (SFcompare_eq_l _ _ _ _ Hxy Hyz).
  - now rewrite (SFcompare_lt_trans _ _ _ Hxy Hyz).
Qed.

Lemma temperature_classifiers_same (tempData : Temperature) :
  category (assessTemperature (Some tempData))
    = Some (TemperaturePulseSynergyModel.category
              (TemperaturePulseSynergyModel.assessTemperature tempData)) /\
  riskLevel (assessTemperature (Some tempData))
    = Some (TemperaturePulseSynergyModel.riskLevel
              (TemperaturePulseSynergyModel.assessTemperature tempData)).
Proof.
  unfold assessTemperature, TemperaturePulseSynergyModel.assessTemperature.
  destruct (value tempData >? max (rangeFor (location tempData)) + 0.5); [split; reflexivity|].
  destruct (value tempData >? max (rangeFor (location tempData))); [split; reflexivity|].
  destruct (value tempData <? min (rangeFor (location tempData)) - 0.5); [split; reflexivity|].
  destruct (value tempData <? min (rangeFor (location tempData))); split; reflexivity.
Qed.

(** X1.  The three temperature classifiers of the repository (the public
    one, the one of the synergy evaluator and the one of the second module's
    synergy evaluator) give the same category and risk level for every
    temperature substructure, whatever the value and the site. *)
Theorem temperature_classifiers_agree (tempData : Temperature) :
  let a := assessTemperature (Some tempData) in
  let s := TemperaturePulseSynergyModel.assessTemperature tempData in
  category a = Some (TemperaturePulseSynergyModel.category s) /\
  riskLevel a = Some (TemperaturePulseSynergyModel.riskLevel s) /\
  Pro.assessTemperature tempData =
    Pro.RatedAs (TemperaturePulseSynergyModel.category s)
                (TemperaturePulseSynergyModel.riskLevel s).
Proof.
  cbv zeta. destruct (temperature_classifiers_same tempData) as [Hc Hr].
  split; [exact Hc|]. split; [exact Hr|].
  unfold Pro.assessTemperature, TemperaturePulseSynergyModel.assessTemperature.
  destruct (value tempData >? max (rangeFor (location tempData)) + 0.5); [reflexivity|].
  destruct (value tempData >? max (rangeFor (location tempData))); [reflexivity|].
  destruct (value tempData <? min (rangeFor (location tempData)) - 0.5); [reflexivity|].
  destruct (value tempData <? min (rangeFor (location tempData))); reflexivity.
Qed.

(** X2.  For every measurement site, known or not, a higher temperature is
    never put in a colder category: along
    hypothermia < low_normal < normal < fever < high_fever the category
    never goes down when the value goes up. *)
Theorem temperature_tier_monotone (site : string) (v1 v2 : float) :
  (v1 <=? v2) = true ->
  match category (assessTemperature (Some {| value := v1; location := site |})),
        category (assessTemperature (Some {| value := v2; location := site |}))
  with
  | Some c1, Some c2 => Tier.temperature c1 <= Tier.temperature c2
  | _, _ => False
  end.
Proof.
  intros Hle. unfold assessTemperature. cbn [value location].
  set (r := rangeFor site).
  assert (A : (v1 >? max r + 0.5) = true -> (v2 >? max r + 0.5) = true)
    by (unfold JS.gtb; intros H; exact (ltb_leb_trans _ _ _ H Hle)).
  assert (B : (v1 >? max r) = true -> (v2 >? max r) = true)
    by (unfold JS.gtb; intros H; exact (ltb_leb_trans _ _ _ H Hle)).
  assert (C : (v2 <? min r - 0.5) = true -> (v1 <? min r - 0.5) = true)
    by (intros H; exact (leb_ltb_trans _ _ _ Hle H)).
  assert (D : (v2 <? min r) = true -> (v1 <? min r) = true)
    by (intros H; exact (leb_ltb_trans _ _ _ Hle H)).
  destruct (v1 >? max r + 0.5); [rewrite (A eq_refl); cbn; lia|].
  destruct (v1 >? max r); [rewrite (B eq_refl); destruct (v2 >? max r + 0.5); cbn; lia|].
  destruct (v2 >? max r + 0.5); [destruct (v1 <? min r - 0.5); [|destruct (v1 <? min r)]; cbn; lia|].
  destruct (v2 >? max r); [destruct (v1 <? min r - 0.5); [|destruct (v1 <? min r)]; cbn; lia|].
  destruct (v2 <? min r - 0.5); [rewrite (C eq_refl); cbn; lia|].
  destruct (v2 <? min r); [rewrite (D eq_refl); destruct (v1 <? min r - 0.5); cbn; lia|].
  destruct (v1 <? min r - 0.5); [|destruct (v1 <? min r)]; cbn; lia.
Qed.

Lemma temperature_tier_monotone_witness :
  (36.8 <=? 37.5) = true /\
  match category (assessTemperature (Some {| value := 36.8; location := "口腔" |})),
        category (assessTemperature (Some {| value := 37.5; location := "口腔" |}))
  with
  | Some c1, Some c2 => Tier.temperature c1 <= Tier.temperature c2
  | _, _ => False
  end.
Proof.
  split; [reflexivity | apply (temperature_tier_monotone "口腔" 36.8 37.5); reflexivity].
Defined.

(** X3.  A higher saturation never gets a higher risk level from the
    blood-oxygen classifier, whatever the other fields of the substructure. *)
Theorem blood_oxygen_risk_antitone (p1 p2 : float) (pi1 pi2 : float) (pr1 pr2 : JS.num) :
  (p1 <=? p2) = true ->
  match riskLevel (assessBloodOxygen (Some {| percent := p1; pi := pi1; pr := pr1 |})),
        riskLevel (assessBloodOxygen (Some {| percent := p2; pi := pi2; pr := pr2 |}))
  with
  | Some r1, Some r2 => RiskLevel.ordinal r2 <= RiskLevel.ordinal r1
  | _, _ => False
  end.
Proof.
  intros Hle. unfold assessBloodOxygen. cbn [percent].
  assert (A : (p2 <? 90) = true -> (p1 <? 90) = true)
    by (intros H; exact (leb_ltb_trans _ _ _ Hle H)).
  assert (B : (p2 <? 95) = true -> (p1 <? 95) = true)
    by (intros H; exact (leb_ltb_trans _ _ _ Hle H)).
  destruct (p2 <? 90); [rewrite (A eq_refl); cbn; lia|].
  destruct (p2 <? 95); [rewrite (B eq_refl); destruct (p1 <? 90); cbn; lia|].
  destruct (p1 <? 90); [cbn; lia|]. destruct (p1 <? 95); cbn; lia.
Qed.

Lemma blood_oxygen_risk_antitone_witness :
  (88 <=? 93) = true /\
  match riskLevel (assessBloodOxygen (Some {| percent := 88; pi := 0.4; pr := None |})),
        riskLevel (assessBloodOxygen (Some {| percent := 93; pi := 1.2; pr := Some 70 |}))
  with
  | Some r1, Some r2 => RiskLevel.ordinal r2 <= RiskLevel.ordinal r1
  | _, _ => False
  end.
Proof.
  split; [reflexivity
         | apply (blood_oxygen_risk_antitone 88 93 0.4 1.2 None (Some 70)); reflexivity].
Defined.

(** X4.  On a truthy pulse the public pulse classifier and the synergy
    evaluator's one give the same category, and the same risk level, exactly
    when the pulse is not above 120. *)
Theorem pulse_classifiers_agree_up_to_120 (p : float) :
  JS.truthy (Some p) = true ->
  let a := assessPulse (Some p) in
  let s := TemperaturePulseSynergyModel.assessPulse p in
  (category a = Some (TemperaturePulseSynergyModel.category s) <-> (p >? 120) = false) /\
  (riskLevel a = Some (TemperaturePulseSynergyModel.riskLevel s) <-> (p >? 120) = false).
Proof.
  intros T. cbv zeta.
  unfold assessPulse, TemperaturePulseSynergyModel.assessPulse. rewrite T.
  cbn [negb JS.to_number].
  destruct (p <? 50) eqn:E50.
  - pose proof (below_50_not_above_100 p E50) as N100.
    destruct (p >? 120) eqn:E120.
    + rewrite (above_120_above_100 p E120) in N100. discriminate.
    + cbn. split; split; intros; reflexivity.
  - destruct (p >? 120) eqn:E120.
    + rewrite (above_120_above_100 p E120). cbn. split; split; intros H; discriminate H.
    + destruct (p >? 100); cbn; split; split; intros; reflexivity.
Qed.

Lemma pulse_classifiers_agree_up_to_120_witness :
  JS.truthy (Some 110) = true /\
  let a := assessPulse (Some 110) in
  let s := TemperaturePulseSynergyModel.assessPulse 110 in
  (category a = Some (TemperaturePulseSynergyModel.category s) <-> (110 >? 120) = false) /\
  (riskLevel a = Some (TemperaturePulseSynergyModel.riskLevel s) <-> (110 >? 120) = false).
Proof.
  split; [reflexivity | apply (pulse_classifiers_agree_up_to_120 110); reflexivity].
Defined.

(** X5.  The synergy evaluator answers [insufficient_data], with score 0,
    exactly when the basic vital signs hold [no_data] for the temperature or
    for the pulse; otherwise its temperature has the category and risk level
    of the basic vital signs and its pulse is classified from the same pulse
    source. *)
Theorem synergy_sufficient_iff_both_classified (healthData : HealthData) :
  let b := assessBasicVitalSigns healthData in
  match TemperaturePulseSynergyModel.assess healthData with
  | TemperaturePulseSynergyModel.Insufficient st s =>
      st = Status.insufficient_data /\ s = 0 /\
      (category (bvs_temperature b) = None \/ category (bvs_pulse b) = None)
  | TemperaturePulseSynergyModel.Assessed t p _ _ =>
      category (bvs_temperature b) = Some (TemperaturePulseSynergyModel.category t) /\
      riskLevel (bvs_temperature b) = Some (TemperaturePulseSynergyModel.riskLevel t) /\
      (exists c, category (bvs_pulse b) = Some c) /\
      p = TemperaturePulseSynergyModel.assessPulse (JS.to_number (pulseSource healthData))
  end.
Proof.
  cbv zeta. unfold TemperaturePulseSynergyModel.assess, assessBasicVitalSigns.
  cbn [bvs_temperature bvs_pulse].
  destruct (temperature healthData) as [t|].
  - destruct (JS.truthy (pulseSource healthData)) eqn:T; cbn [negb].
    + destruct (temperature_classifiers_same t) as [Hc Hr].
      repeat split; try assumption.
      destruct (pulseSource healthData) as [p|]; [|discriminate].
      rewrite (assessPulse_cases p T). eauto.
    + repeat split. right. unfold assessPulse. now rewrite T.
  - repeat split. now left.
Qed.

(** X6.  A higher composite score never gets a worse grade, along
    critical < poor < fair < good < excellent. *)
Theorem scoreToGrade_monotone (s1 s2 : float) :
  (s1 <=? s2) = true ->
  Tier.grade (scoreToGrade s1) <= Tier.grade (scoreToGrade s2).
Proof.
  intros Hle. unfold scoreToGrade.
  pose proof (geb_mono 0.9 s1 s2 Hle) as M4.
  pose proof (geb_mono 0.8 s1 s2 Hle) as M3.
  pose proof (geb_mono 0.6 s1 s2 Hle) as M2.
  pose proof (geb_mono 0.4 s1 s2 Hle) as M1.
  destruct (s1 >=? 0.9); [rewrite (M4 eq_refl); cbn; lia|].
  destruct (s2 >=? 0.9); [destruct (s1 >=? 0.8); [|destruct (s1 >=? 0.6); [|destruct (s1 >=? 0.4)]]; cbn; lia|].
  destruct (s1 >=? 0.8); [rewrite (M3 eq_refl); cbn; lia|].
  destruct (s2 >=? 0.8); [destruct (s1 >=? 0.6); [|destruct (s1 >=? 0.4)]; cbn; lia|].
  destruct (s1 >=? 0.6); [rewrite (M2 eq_refl); cbn; lia|].
  destruct (s2 >=? 0.6); [destruct (s1 >=? 0.4); cbn; lia|].
  destruct (s1 >=? 0.4); [rewrite (M1 eq_refl); cbn; lia|].
  destruct (s2 >=? 0.4); cbn; lia.
Qed.

Lemma scoreToGrade_monotone_witness :
  (0.47 <=? 0.85) = true /\
  Tier.grade (scoreToGrade 0.47) <= Tier.grade (scoreToGrade 0.85).
Proof.
  split; [reflexivity | apply (scoreToGrade_monotone 0.47 0.85); reflexivity].
Defined.



Ltac impossible_order :=
  repeat match goal with
  | H : true = true -> _ |- _ => specialize (H eq_refl)
  end;
  discriminate.

(** X7.  The blood-pressure recommendations are the three lifestyle items
    and the one monitoring item exactly when the classifier's category is
    stage 1, 2 or 3 hypertension, and empty for normal and high_normal. *)
Theorem blood_pressure_advice_from_stage1 (bp : BloodPressure) :
  exists c,
    category (assessBloodPressure (Some bp)) = Some c /\
    Advice.getBloodPressureRecommendations bp =
      if Nat.leb 2 (Spec.severity c) then
        {| Advice.lifestyle :=
             [ "低鹽飲食（每日鹽攝入≤5g）"; "規律有氧運動（每週150分鐘）"; "控制體重，避免肥胖" ];
           Advice.monitoring := [ "每日早晚各測量一次血壓" ] |}%string
      else {| Advice.lifestyle := []; Advice.monitoring := [] |}.
Proof.
  unfold assessBloodPressure, Advice.getBloodPressureRecommendations.
  thresholds (systolic bp). thresholds (diastolic bp).
  destruct (systolic bp >=? 180) eqn:S3; destruct (systolic bp >=? 160) eqn:S2;
  destruct (systolic bp >=? 140) eqn:S1; try impossible_order;
  destruct (diastolic bp >=? 110) eqn:D3; destruct (diastolic bp >=? 100) eqn:D2;
  destruct (diastolic bp >=? 90) eqn:D1; try impossible_order;
  cbn [orb];
  try (destruct ((systolic bp >=? 130) || (diastolic bp >=? 85)));
  eexists; split; reflexivity.
Qed.

(** X8.  The blood-oxygen recommendations are given exactly when the
    classifier's category is not normal, and are empty otherwise. *)
Theorem blood_oxygen_advice_below_normal (s : SpO2) :
  exists c,
    category (assessBloodOxygen (Some s)) = Some c /\
    Advice.getBloodOxygenRecommendations s =
      match c with
      | Category.normal => {| Advice.lifestyle := []; Advice.monitoring := [] |}
      | _ =>
        {| Advice.lifestyle := [ "改善室內通風"; "避免吸煙和二手煙"; "適度有氧運動" ];
           Advice.monitoring := [ "每日監測血氧飽和度" ] |}%string
      end.
Proof.
  unfold assessBloodOxygen, Advice.getBloodOxygenRecommendations.
  destruct (percent s <? 90) eqn:E90.
  - rewrite (ltb_trans (percent s) 90 95 E90 eq_refl). eexists; split; reflexivity.
  - destruct (percent s <? 95); eexists; split; reflexivity.
Qed.

Lemma stratification_gives_three (cs : CompositeScore) :
  List.length (rs_recommendations (performRiskStratification cs)) = 3%nat.
Proof.
  unfold performRiskStratification.
  destruct (isGrade (grade cs) Grade.critical || (score cs <? 0.4)); [reflexivity|].
  destruct (isGrade (grade cs) Grade.poor || (score cs <? 0.6)); [reflexivity|].
  destruct (isGrade (grade cs) Grade.fair || (score cs <? 0.8)); reflexivity.
Qed.

(** X9.  In the personalized recommendations of a report the medical list
    is always empty, the immediate list has three entries, the lifestyle and
    monitoring lists are the blood-pressure items followed by the
    blood-oxygen items, three lifestyle items for each monitoring item and
    at most two monitoring items. *)
Theorem personalized_recommendations_shape (weights : ParameterCustomization.Weights)
    (healthData : HealthData) :
  let p := Advice.personalizedRecommendations weights healthData in
  let fromPressure :=
    match bloodPressure healthData with
    | Some bp => Advice.getBloodPressureRecommendations bp
    | None => {| Advice.lifestyle := []; Advice.monitoring := [] |}
    end in
  let fromOxygen :=
    match spO2 healthData with
    | Some s => Advice.getBloodOxygenRecommendations s
    | None => {| Advice.lifestyle := []; Advice.monitoring := [] |}
    end in
  Advice.medical p = [] /\
  List.length (Advice.immediate p) = 3%nat /\
  Advice.pLifestyle p = Advice.lifestyle fromPressure ++ Advice.lifestyle fromOxygen /\
  Advice.pMonitoring p = Advice.monitoring fromPressure ++ Advice.monitoring fromOxygen /\
  List.length (Advice.pLifestyle p) = (3 * List.length (Advice.pMonitoring p))%nat /\
  (List.length (Advice.pMonitoring p) <= 2)%nat.
Proof.
  cbv zeta. unfold Advice.personalizedRecommendations, Advice.generatePersonalizedRecommendations.
  split; [destruct (bloodPressure healthData), (spO2 healthData); reflexivity|].
  split.
  { destruct (bloodPressure healthData), (spO2 healthData); cbn [Advice.immediate];
      apply stratification_gives_three. }
  destruct (bloodPressure healthData) as [bp|], (spO2 healthData) as [s|];
    cbn [Advice.pLifestyle Advice.pMonitoring Advice.lifestyle Advice.monitoring app];
    unfold Advice.getBloodPressureRecommendations, Advice.getBloodOxygenRecommendations;
    repeat match goal with
    | |- context [if ?b then _ else _] => destruct b
    end; cbn; repeat split; lia.
Qed.

(** X10.  The data limitations name exactly the absent substructures and
    end with the two fixed notes.  The data-collection suggestions name a
    device exactly for an absent blood pressure or SpO2, end with the three
    fixed suggestions, and do not depend on the temperature. *)
Theorem limitations_name_what_is_absent (healthData : HealthData) :
  let l := Advice.getDataLimitations healthData in
  let d := Advice.getDataCollectionRecommendations healthData in
  (In "缺少血壓數據"%string l <-> bloodPressure healthData = None) /\
  (In "缺少血氧數據"%string l <-> spO2 healthData = None) /\
  (In "缺少體溫數據"%string l <-> temperature healthData = None) /\
  (exists missing,
     l = missing ++ [ "缺少血糖、血脂、運動、飲食等數據"; "部分評估基於邏輯推導，建議補充完整數據" ]%string
     /\ (List.length missing <= 3)%nat) /\
  (In "建議添加血壓監測設備"%string d <-> bloodPressure healthData = None) /\
  (In "建議添加血氧監測設備"%string d <-> spO2 healthData = None) /\
  (exists devices,
     d = devices ++ [ "建議補充血糖監測數據"; "建議添加運動記錄功能"; "建議添加飲食記錄功能" ]%string
     /\ (List.length devices <= 2)%nat) /\
  (forall t : option Temperature,
     Advice.getDataCollectionRecommendations
       {| bloodPressure := bloodPressure healthData; spO2 := spO2 healthData; temperature := t |}
     = d).
Proof.
  cbv zeta. unfold Advice.getDataLimitations, Advice.getDataCollectionRecommendations.
  repeat match goal with
  | |- _ /\ _ => split
  | |- exists _, _ = _ /\ _ => eexists; split; [reflexivity|]
  end;
  destruct (bloodPressure healthData) as [bp|], (spO2 healthData) as [s|],
           (temperature healthData) as [t|];
    cbn [JS.present negb Advice.pushIf app bloodPressure spO2 List.length];
    try lia; try (intros; reflexivity);
    (split; intros H; try reflexivity; try discriminate;
     cbn in *; try tauto; intuition (try discriminate)).
Qed.



Lemma insights_decomposition (healthData : HealthData) :
  DataDerivationLogic.generateInsights healthData =
  Derived.optional (Derived.circulationOf healthData)
  ++ Derived.optional (Derived.respiratoryOf healthData)
  ++ Derived.optional (Derived.metabolicOf healthData).
Proof.
  unfold DataDerivationLogic.generateInsights, Derived.circulationOf, Derived.respiratoryOf,
    Derived.metabolicOf.
  destruct (bloodPressure healthData) as [bp|];
    [destruct (DataDerivationLogic.deriveCirculationInsight bp)|];
  (destruct (spO2 healthData) as [s|];
    [destruct (DataDerivationLogic.deriveRespiratoryInsight s)|]);
  (destruct (temperature healthData) as [t|];
    [destruct (JS.truthy (pulseSource healthData));
      [destruct (DataDerivationLogic.deriveMetabolicInsight t _)|]|]);
  reflexivity.
Qed.

Lemma circulation_insight_type (bp : BloodPressure) (i : DataDerivationLogic.Insight) :
  DataDerivationLogic.deriveCirculationInsight bp = Some i ->
  DataDerivationLogic.type i = DataDerivationLogic.circulation /\
  DataDerivationLogic.confidence i = "moderate"%string.
Proof.
  unfold DataDerivationLogic.deriveCirculationInsight.
  destruct (_ && _); [intros [= <-]; split; reflexivity|].
  destruct (_ && _); [intros [= <-]; split; reflexivity | discriminate].
Qed.

Lemma respiratory_insight_type (s : SpO2) (i : DataDerivationLogic.Insight) :
  DataDerivationLogic.deriveRespiratoryInsight s = Some i ->
  DataDerivationLogic.type i = DataDerivationLogic.respiratory /\
  DataDerivationLogic.confidence i = "moderate"%string.
Proof.
  unfold DataDerivationLogic.deriveRespiratoryInsight.
  destruct (_ && _); [intros [= <-]; split; reflexivity | discriminate].
Qed.

Lemma metabolic_insight_type (t : Temperature) (p : float) (i : DataDerivationLogic.Insight) :
  DataDerivationLogic.deriveMetabolicInsight t p = Some i ->
  DataDerivationLogic.type i = DataDerivationLogic.metabolic /\
  DataDerivationLogic.confidence i = "moderate"%string /\
  (value t >? 37.5) = true /\ (p >? 100) = true.
Proof.
  unfold DataDerivationLogic.deriveMetabolicInsight.
  destruct (value t >? 37.5), (p >? 100); cbn; try discriminate.
  intros [= <-]. repeat split.
Qed.

Lemma circulationOf_type (h : HealthData) (i : DataDerivationLogic.Insight) :
  Derived.circulationOf h = Some i ->
  DataDerivationLogic.type i = DataDerivationLogic.circulation /\
  DataDerivationLogic.confidence i = "moderate"%string.
Proof.
  unfold Derived.circulationOf. destruct (bloodPressure h); [apply circulation_insight_type | discriminate].
Qed.

Lemma respiratoryOf_type (h : HealthData) (i : DataDerivationLogic.Insight) :
  Derived.respiratoryOf h = Some i ->
  DataDerivationLogic.type i = DataDerivationLogic.respiratory /\
  DataDerivationLogic.confidence i = "moderate"%string.
Proof.
  unfold Derived.respiratoryOf. destruct (spO2 h); [apply respiratory_insight_type | discriminate].
Qed.

Lemma metabolicOf_type (h : HealthData) (i : DataDerivationLogic.Insight) :
  Derived.metabolicOf h = Some i ->
  DataDerivationLogic.type i = DataDerivationLogic.metabolic /\
  DataDerivationLogic.confidence i = "moderate"%string.
Proof.
  unfold Derived.metabolicOf. destruct (temperature h) as [t|]; [|discriminate].
  destruct (JS.truthy (pulseSource h)); [|discriminate].
  intros H. destruct (metabolic_insight_type _ _ _ H) as (? & ? & _). now split.
Qed.

(** X11.  The derivation engine emits at most one insight of each kind, in
    the order circulation, respiratory, metabolic, hence at most three; each
    carries the confidence label moderate; the empty reading gives none. *)
Theorem insights_one_per_kind_in_order (healthData : HealthData) :
  let insights := DataDerivationLogic.generateInsights healthData in
  (exists c r m : bool,
     map DataDerivationLogic.type insights =
       (if c then [DataDerivationLogic.circulation] else [])
       ++ (if r then [DataDerivationLogic.respiratory] else [])
       ++ (if m then [DataDerivationLogic.metabolic] else [])) /\
  (List.length insights <= 3)%nat /\
  Forall (fun i => DataDerivationLogic.confidence i = "moderate"%string) insights /\
  DataDerivationLogic.generateInsights Readings.empty = [].
Proof.
  cbv zeta. rewrite insights_decomposition.
  pose proof (circulationOf_type healthData) as Hc.
  pose proof (respiratoryOf_type healthData) as Hr.
  pose proof (metabolicOf_type healthData) as Hm.
  destruct (Derived.circulationOf healthData) as [c|];
  destruct (Derived.respiratoryOf healthData) as [r|];
  destruct (Derived.metabolicOf healthData) as [m|];
  repeat match goal with
  | H : forall i, Some ?x = Some i -> _ |- _ => destruct (H x eq_refl); clear H
  | H : forall i, None = Some i -> _ |- _ => clear H
  end;
  cbn [Derived.optional app map List.length];
  (split; [| split; [lia | split; [repeat constructor; assumption | reflexivity]]]).
  - exists true, true, true. cbn. congruence.
  - exists true, true, false. cbn. congruence.
  - exists true, false, true. cbn. congruence.
  - exists true, false, false. cbn. congruence.
  - exists false, true, true. cbn. congruence.
  - exists false, true, false. cbn. congruence.
  - exists false, false, true. cbn. congruence.
  - exists false, false, false. reflexivity.
Qed.

(** X12.  The circulation rule reads the cuff pulse only: without it no
    circulation insight is emitted whatever the pressures, even when the
    oximeter supplies the pulse rate that triggers the metabolic insight. *)
Theorem circulation_insight_needs_cuff_pulse :
  (forall (s d : float),
     DataDerivationLogic.deriveCirculationInsight
       {| systolic := s; diastolic := d; pulse := None |} = None) /\
  (forall (s d : float) (oximeter : option SpO2) (t : option Temperature),
     Forall (fun i => DataDerivationLogic.type i <> DataDerivationLogic.circulation)
       (DataDerivationLogic.generateInsights
          {| bloodPressure := Some {| systolic := s; diastolic := d; pulse := None |};
             spO2 := oximeter; temperature := t |})) /\
  map DataDerivationLogic.type
    (DataDerivationLogic.generateInsights
       {| bloodPressure := Some {| systolic := 150; diastolic := 95; pulse := None |};
          spO2 := Some {| percent := 97; pi := 1.5; pr := Some 110 |};
          temperature := Some {| value := 38.2; location := "腋下" |} |})
  = [DataDerivationLogic.metabolic].
Proof.
  assert (N : forall s d, DataDerivationLogic.deriveCirculationInsight
                {| systolic := s; diastolic := d; pulse := None |} = None).
  { intros s d. unfold DataDerivationLogic.deriveCirculationInsight.
    cbn [pulse systolic JS.to_number].
    change (nan >? 100) with false. change (nan <? 60) with false.
    now rewrite !andb_false_r. }
  split; [exact N|]. split; [|reflexivity].
  intros s d oximeter t. rewrite insights_decomposition.
  unfold Derived.circulationOf. cbn [bloodPressure]. rewrite N. cbn [Derived.optional app].
  apply Forall_app. split.
  - set (h := {| bloodPressure := _ |}).
    pose proof (respiratoryOf_type h) as Hr.
    destruct (Derived.respiratoryOf h) as [r|]; cbn; constructor; [|constructor].
    destruct (Hr r eq_refl) as [-> _]. discriminate.
  - set (h := {| bloodPressure := _ |}).
    pose proof (metabolicOf_type h) as Hm.
    destruct (Derived.metabolicOf h) as [m|]; cbn; constructor; [|constructor].
    destruct (Hm m eq_refl) as [-> _]. discriminate.
Qed.






Lemma report_composite (weights : ParameterCustomization.Weights) (healthData : HealthData) :
  exists x1 x2 x3,
    In x1 Ranges.stabilityScores /\ In x2 Ranges.perfusionScores /\ In x3 Ranges.synergyScores /\
    (bloodPressure healthData = None -> x1 = 0) /\
    (spO2 healthData = None -> x2 = 0) /\
    (temperature healthData = None \/ JS.truthy (pulseSource healthData) = false -> x3 = 0) /\
    compositeScore (generateComprehensiveAssessment weights healthData)
      = Ranges.compositeOf weights x1 x2 x3.
Proof.
  destruct (stability_score_listed healthData) as (x1 & E1 & L1).
  destruct (perfusion_score_listed healthData) as (x2 & E2 & L2).
  destruct (synergy_score_listed healthData) as (x3 & E3 & L3).
  exists x1, x2, x3. repeat split; try assumption.
  - intros H. unfold BloodPressureStabilityModel.assess in E1. rewrite H in E1.
    now injection E1.
  - intros H. unfold BloodOxygenPerfusionModel.assess in E2. rewrite H in E2.
    now injection E2.
  - intros H. unfold TemperaturePulseSynergyModel.assess in E3.
    destruct (temperature healthData); [|now injection E3].
    destruct H as [H|H]; [discriminate|]. rewrite H in E3. now injection E3.
  - unfold generateComprehensiveAssessment. cbn [compositeScore].
    exact (composite_reads_scores weights (subModelAssessments healthData) x1 x2 x3 E1 E2 E3).
Qed.

Lemma all_default_grades_decide :
  forallb (fun x1 =>
    forallb (fun x2 =>
      forallb (fun x3 =>
        Consistency.gradeDecidesCategory
          (Ranges.compositeOf ParameterCustomization.defaultWeights x1 x2 x3))
        Ranges.synergyScores)
      Ranges.perfusionScores)
    Ranges.stabilityScores = true.
Proof. vm_compute. reflexivity. Qed.

Lemma grade_decides_category (healthData : HealthData) :
  let report := generateComprehensiveAssessment ParameterCustomization.defaultWeights healthData in
  rs_category (riskStratification report)
    = Consistency.categoryOfGrade (grade (compositeScore report)).
Proof.
  cbv zeta.
  destruct (report_composite ParameterCustomization.defaultWeights healthData)
    as (x1 & x2 & x3 & L1 & L2 & L3 & _ & _ & _ & E).
  pose proof (forallb3_forall
           (fun a b c => Consistency.gradeDecidesCategory
                           (Ranges.compositeOf ParameterCustomization.defaultWeights a b c))
           _ _ _ all_default_grades_decide x1 x2 x3 L1 L2 L3) as H.
  cbv beta in H. unfold Consistency.gradeDecidesCategory in H.
  apply String.eqb_eq in H.
  assert (R : riskStratification
                (generateComprehensiveAssessment ParameterCustomization.defaultWeights healthData)
              = performRiskStratification
                  (compositeScore
                     (generateComprehensiveAssessment ParameterCustomization.defaultWeights healthData)))
    by reflexivity.
  rewrite R, E. exact H.
Qed.

(** X14.  With the default weights the grade of a report decides its risk
    category and follow-up interval: critical gives very_high, poor gives
    high, fair gives moderate, good and excellent give low.  The test on the
    rounded score never overrides the grade. *)
Theorem grade_decides_risk_category (healthData : HealthData) :
  let report := generateComprehensiveAssessment ParameterCustomization.defaultWeights healthData in
  rs_category (riskStratification report)
    = Consistency.categoryOfGrade (grade (compositeScore report)) /\
  rs_followUpInterval (riskStratification report)
    = getFollowUpInterval (Consistency.categoryOfGrade (grade (compositeScore report))).
Proof.
  cbv zeta. pose proof (grade_decides_category healthData) as H. cbv zeta in H.
  split; [exact H|]. rewrite <- H.
  unfold generateComprehensiveAssessment. cbn [riskStratification].
  unfold performRiskStratification.
  destruct (isGrade _ _ || _); [reflexivity|].
  destruct (isGrade _ _ || _); [reflexivity|].
  destruct (isGrade _ _ || _); reflexivity.
Qed.

Lemma all_default_incomplete_at_most_fair :
  forallb (fun x1 =>
    forallb (fun x2 =>
      forallb (fun x3 =>
        negb (PrimFloat.eqb x1 0 || PrimFloat.eqb x2 0 || PrimFloat.eqb x3 0)
        || Consistency.atMostFair
             (Ranges.compositeOf ParameterCustomization.defaultWeights x1 x2 x3))
        Ranges.synergyScores)
      Ranges.perfusionScores)
    Ranges.stabilityScores = true.
Proof. vm_compute. reflexivity. Qed.

(** X15.  With the default weights, a reading that lacks the blood
    pressure, the SpO2, the temperature or a truthy pulse is graded fair at
    best, and its risk category is never low. *)
Theorem missing_input_caps_grade (healthData : HealthData) :
  bloodPressure healthData = None \/ spO2 healthData = None \/
  temperature healthData = None \/ JS.truthy (pulseSource healthData) = false ->
  let report := generateComprehensiveAssessment ParameterCustomization.defaultWeights healthData in
  (Tier.grade (grade (compositeScore report)) <= 2)%nat /\
  rs_category (riskStratification report) <> "low"%string.
Proof.
  intros Hmiss. cbv zeta.
  pose proof (grade_decides_category healthData) as Hcat. cbv zeta in Hcat. rewrite Hcat.
  destruct (report_composite ParameterCustomization.defaultWeights healthData)
    as (x1 & x2 & x3 & L1 & L2 & L3 & Z1 & Z2 & Z3 & E).
  rewrite E.
  pose proof (forallb3_forall
           (fun a b c =>
              negb (PrimFloat.eqb a 0 || PrimFloat.eqb b 0 || PrimFloat.eqb c 0)
              || Consistency.atMostFair
                   (Ranges.compositeOf ParameterCustomization.defaultWeights a b c))
           _ _ _ all_default_incomplete_at_most_fair x1 x2 x3 L1 L2 L3) as H.
  cbv beta in H.
  assert (Hz : (PrimFloat.eqb x1 0 || PrimFloat.eqb x2 0 || PrimFloat.eqb x3 0) = true).
  { destruct Hmiss as [M | [M | M]].
    - rewrite (Z1 M). reflexivity.
    - rewrite (Z2 M). now rewrite orb_true_r.
    - rewrite (Z3 M). now rewrite !orb_true_r. }
  rewrite Hz in H. cbn [negb orb] in H. unfold Consistency.atMostFair in H.
  apply Nat.leb_le in H. split; [exact H|].
  destruct (grade (Ranges.compositeOf ParameterCustomization.defaultWeights x1 x2 x3));
    cbn in *; try lia; discriminate.
Qed.

Lemma missing_input_caps_grade_witness :
  (bloodPressure Readings.withoutSpO2 = None \/ spO2 Readings.withoutSpO2 = None \/
   temperature Readings.withoutSpO2 = None \/
   JS.truthy (pulseSource Readings.withoutSpO2) = false) /\
  let report :=
    generateComprehensiveAssessment ParameterCustomization.defaultWeights Readings.withoutSpO2 in
  (Tier.grade (grade (compositeScore report)) <= 2)%nat /\
  rs_category (riskStratification report) <> "low"%string.
Proof.
  assert (H : bloodPressure Readings.withoutSpO2 = None \/ spO2 Readings.withoutSpO2 = None \/
              temperature Readings.withoutSpO2 = None \/
              JS.truthy (pulseSource Readings.withoutSpO2) = false)
    by (right; left; reflexivity).
  split; [exact H | exact (missing_input_caps_grade Readings.withoutSpO2 H)].
Defined.

Lemma composite_confidence (weights : ParameterCustomization.Weights) (a : Assessments) :
  confidence (calculateCompositeScore weights a) = calculateConfidence (snd (totals weights a)).
Proof.
  unfold calculateCompositeScore. now destruct (totals weights a).
Qed.

(** X16.  The confidence of a report depends on the weights only: for
    every reading it is the minimum of 100 and 100 times the sum of the three
    weights. *)
Theorem confidence_ignores_the_reading (weights : ParameterCustomization.Weights)
    (healthData : HealthData) :
  confidence (compositeScore (generateComprehensiveAssessment weights healthData)) =
  JS.min ((0 + ParameterCustomization.bloodPressureStability weights
             + ParameterCustomization.bloodOxygenPerfusion weights
             + ParameterCustomization.temperaturePulseSynergy weights) * 100) 100.
Proof.
  unfold generateComprehensiveAssessment. cbn [compositeScore].
  rewrite composite_confidence, total_weight_whatever_the_reading. reflexivity.
Qed.

(** X17.  The synergy label is good exactly when both risk levels are low,
    moderate when the ordinals of the two risk levels add up to 1, 2 or 3,
    and poor from 4 on; the binary64 average falls on the right side of 0.3
    and 0.6 in all twenty-five cases. *)
Theorem synergy_label_by_risk_levels (temperature pulse : TemperaturePulseSynergyModel.Scored) :
  TemperaturePulseSynergyModel.interpretation
    (TemperaturePulseSynergyModel.calculateSynergy temperature pulse) =
  let n := (RiskLevel.ordinal (TemperaturePulseSynergyModel.riskLevel temperature)
            + RiskLevel.ordinal (TemperaturePulseSynergyModel.riskLevel pulse))%nat in
  if Nat.eqb n 0 then Synergy.good
  else if Nat.ltb n 4 then Synergy.moderate
  else Synergy.poor.
Proof.
  destruct temperature as [c1 r1 s1], pulse as [c2 r2 s2].
  unfold TemperaturePulseSynergyModel.calculateSynergy.
  cbn [TemperaturePulseSynergyModel.interpretation TemperaturePulseSynergyModel.riskLevel].
  destruct r1, r2; reflexivity.
Qed.



Lemma grid_agrees :
  forallb (fun s => forallb (fun d => Grid.agrees s d) Grid.values) Grid.values = true.
Proof. vm_compute. reflexivity. Qed.

Lemma in_grid (z : Z) : (1 <= z <= 300)%Z -> In z Grid.values.
Proof.
  intros H. unfold Grid.values. apply in_map_iff. exists (Z.to_nat z). split; [lia|].
  apply in_seq. lia.
Qed.

(** X18.  For whole-number pressures from 1 to 300 the stability is stable
    when 20 |s - d| < s + d, moderate when 10 |s - d| < s + d and unstable
    otherwise, the variability label is the matching one, and the score of
    the evaluator is 1, 0.5 + 0.1 + 0.1 or 0.5 - 0.2 - 0.1 accordingly. *)
Theorem stability_tiers_on_whole_numbers (s d : Z) (p : JS.num) :
  (1 <= s <= 300)%Z -> (1 <= d <= 300)%Z ->
  let bp := {| systolic := JS.of_Z s; diastolic := JS.of_Z d; pulse := p |} in
  BloodPressureStabilityModel.calculateStability bp = Grid.exactStability s d /\
  BloodPressureStabilityModel.interpretation
    (BloodPressureStabilityModel.calculateVariability bp) = Grid.exactLevel s d /\
  BloodPressureStabilityModel.score
    (BloodPressureStabilityModel.assess
       {| bloodPressure := Some bp; spO2 := None; temperature := None |}) =
  Some (match Grid.exactStability s d with
        | Stability.stable => 1
        | Stability.moderate => 0.5 + 0.1 + 0.1
        | Stability.unstable => 0.5 - 0.2 - 0.1
        end).
Proof.
  intros Hs Hd. cbv zeta.
  pose proof grid_agrees as G.
  rewrite forallb_forall in G. specialize (G s (in_grid s Hs)).
  rewrite forallb_forall in G. specialize (G d (in_grid d Hd)).
  unfold Grid.agrees in G. apply andb_prop in G. destruct G as [G1 G2].
  assert (E1 : BloodPressureStabilityModel.calculateStability
                 {| systolic := JS.of_Z s; diastolic := JS.of_Z d; pulse := p |}
               = Grid.exactStability s d).
  { change (BloodPressureStabilityModel.calculateStability
              {| systolic := JS.of_Z s; diastolic := JS.of_Z d; pulse := p |})
      with (BloodPressureStabilityModel.calculateStability (Grid.cuff s d)).
    destruct (BloodPressureStabilityModel.calculateStability (Grid.cuff s d)),
             (Grid.exactStability s d); try reflexivity; discriminate G1. }
  assert (E2 : BloodPressureStabilityModel.interpretation
                 (BloodPressureStabilityModel.calculateVariability
                    {| systolic := JS.of_Z s; diastolic := JS.of_Z d; pulse := p |})
               = Grid.exactLevel s d).
  { change (BloodPressureStabilityModel.calculateVariability
              {| systolic := JS.of_Z s; diastolic := JS.of_Z d; pulse := p |})
      with (BloodPressureStabilityModel.calculateVariability (Grid.cuff s d)).
    destruct (BloodPressureStabilityModel.interpretation
                (BloodPressureStabilityModel.calculateVariability (Grid.cuff s d))),
             (Grid.exactLevel s d); try reflexivity; discriminate G2. }
  split; [exact E1|]. split; [exact E2|].
  unfold BloodPressureStabilityModel.assess.
  cbn [bloodPressure BloodPressureStabilityModel.score].
  unfold BloodPressureStabilityModel.calculateStabilityScore.
  rewrite E1, E2. unfold Grid.exactStability, Grid.exactLevel.
  destruct (20 * Z.abs (s - d) <? s + d)%Z; [reflexivity|].
  destruct (10 * Z.abs (s - d) <? s + d)%Z; reflexivity.
Qed.

Lemma stability_tiers_on_whole_numbers_witness :
  (1 <= 120 <= 300)%Z /\ (1 <= 80 <= 300)%Z /\
  let bp := {| systolic := JS.of_Z 120; diastolic := JS.of_Z 80; pulse := Some 72 |} in
  BloodPressureStabilityModel.calculateStability bp = Grid.exactStability 120 80 /\
  BloodPressureStabilityModel.interpretation
    (BloodPressureStabilityModel.calculateVariability bp) = Grid.exactLevel 120 80 /\
  BloodPressureStabilityModel.score
    (BloodPressureStabilityModel.assess
       {| bloodPressure := Some bp; spO2 := None; temperature := None |}) =
  Some (match Grid.exactStability 120 80 with
        | Stability.stable => 1
        | Stability.moderate => 0.5 + 0.1 + 0.1
        | Stability.unstable => 0.5 - 0.2 - 0.1
        end).
Proof.
  split; [lia|]. split; [lia|].
  apply (stability_tiers_on_whole_numbers 120 80 (Some 72)); lia.
Defined.


Lemma percents_agree : forallb Percent.agrees Percent.values = true.
Proof. vm_compute. reflexivity. Qed.

(** X19.  For whole-number saturations from 0 to 100 the efficiency label
    of the perfusion evaluator goes with the classifier's category: poor
    with severe_hypoxemia (below 90), good with mild_hypoxemia, excellent
    with normal (95 and above). *)
Theorem efficiency_matches_category_on_whole_percents (n : Z) (perfusion : float) (rate : JS.num) :
  (0 <= n <= 100)%Z ->
  let s := {| percent := JS.of_Z n; pi := perfusion; pr := rate |} in
  exists c,
    category (assessBloodOxygen (Some s)) = Some c /\
    BloodOxygenPerfusionModel.interpretation (BloodOxygenPerfusionModel.calculateEfficiency s)
      = Percent.labelOf c /\
    (c = Category.severe_hypoxemia <-> (n < 90)%Z) /\
    (c = Category.normal <-> (95 <= n)%Z).
Proof.
  intros Hn. cbv zeta.
  pose proof percents_agree as G. rewrite forallb_forall in G.
  assert (I : In n Percent.values).
  { unfold Percent.values. apply in_map_iff. exists (Z.to_nat n). split; [lia|].
    apply in_seq. lia. }
  pose proof (G n I) as A. unfold Percent.agrees in A.
  unfold assessBloodOxygen, BloodOxygenPerfusionModel.calculateEfficiency in *.
  cbn [percent category BloodOxygenPerfusionModel.interpretation] in *.
  assert (B : forallb (fun k =>
      let x := JS.of_Z k in
      Bool.eqb (x <? 90) (k <? 90)%Z && Bool.eqb (x <? 95) (k <? 95)%Z) Percent.values = true)
    by (vm_compute; reflexivity).
  rewrite forallb_forall in B. specialize (B n I). cbv zeta in B.
  apply andb_prop in B. destruct B as [B1 B2].
  apply Bool.eqb_prop in B1, B2.
  destruct (JS.of_Z n <? 90) eqn:E90.
  - symmetry in B1. apply Z.ltb_lt in B1.
    eexists. split; [reflexivity|]. cbn [category] in A.
    split; [|split; split; intros H; try reflexivity; try discriminate; lia].
    destruct (JS.of_Z n / 100 >=? 0.95); [discriminate A|].
    destruct (JS.of_Z n / 100 >=? 0.90); [discriminate A | reflexivity].
  - symmetry in B1. apply Z.ltb_ge in B1.
    destruct (JS.of_Z n <? 95) eqn:E95.
    + symmetry in B2. apply Z.ltb_lt in B2.
      eexists. split; [reflexivity|]. cbn [category] in A.
      split; [|split; split; intros H; try discriminate; lia].
      destruct (JS.of_Z n / 100 >=? 0.95); [discriminate A|].
      destruct (JS.of_Z n / 100 >=? 0.90); [reflexivity | discriminate A].
    + symmetry in B2. apply Z.ltb_ge in B2.
      eexists. split; [reflexivity|]. cbn [category] in A.
      split; [|split; split; intros H; try reflexivity; try discriminate; lia].
      destruct (JS.of_Z n / 100 >=? 0.95); [reflexivity|].
      destruct (JS.of_Z n / 100 >=? 0.90); discriminate A.
Qed.

Lemma efficiency_matches_category_on_whole_percents_witness :
  (0 <= 93 <= 100)%Z /\
  let s := {| percent := JS.of_Z 93; pi := 0.8; pr := Some 75 |} in
  exists c,
    category (assessBloodOxygen (Some s)) = Some c /\
    BloodOxygenPerfusionModel.interpretation (BloodOxygenPerfusionModel.calculateEfficiency s)
      = Percent.labelOf c /\
    (c = Category.severe_hypoxemia <-> (93 < 90)%Z) /\
    (c = Category.normal <-> (95 <= 93)%Z).
Proof.
  split; [lia|].
  apply (efficiency_matches_category_on_whole_percents 93 0.8 (Some 75)); lia.
Defined.

Lemma perfusion_rank_monotone (s1 s2 : SpO2) :
  (pi s1 <=? pi s2) = true ->
  (Percent.rank (BloodOxygenPerfusionModel.calculatePerfusion s1)
   <= Percent.rank (BloodOxygenPerfusionModel.calculatePerfusion s2))%nat.
Proof.
  intros Hle. unfold BloodOxygenPerfusionModel.calculatePerfusion.
  assert (A : (pi s2 <? 0.5) = true -> (pi s1 <? 0.5) = true)
    by (intros H; exact (leb_ltb_trans _ _ _ Hle H)).
  assert (B : (pi s2 <? 1.0) = true -> (pi s1 <? 1.0) = true)
    by (intros H; exact (leb_ltb_trans _ _ _ Hle H)).
  assert (C : (pi s2 <? 2.0) = true -> (pi s1 <? 2.0) = true)
    by (intros H; exact (leb_ltb_trans _ _ _ Hle H)).
  destruct (pi s1 <? 0.5); [cbn; lia|].
  destruct (pi s2 <? 0.5); [discriminate (A eq_refl)|].
  destruct (pi s1 <? 1.0); [destruct (pi s2 <? 1.0); [|destruct (pi s2 <? 2.0)]; cbn; lia|].
  destruct (pi s2 <? 1.0); [discriminate (B eq_refl)|].
  destruct (pi s1 <? 2.0); [destruct (pi s2 <? 2.0); cbn; lia|].
  destruct (pi s2 <? 2.0); [discriminate (C eq_refl)|]. cbn; lia.
Qed.

(** X20.  At equal saturation a larger perfusion index never lowers the
    score of the perfusion evaluator. *)
Theorem perfusion_score_monotone_in_pi (s1 s2 : SpO2) :
  percent s1 = percent s2 ->
  (pi s1 <=? pi s2) = true ->
  exists x1 x2,
    BloodOxygenPerfusionModel.score
      (BloodOxygenPerfusionModel.assess
         {| bloodPressure := None; spO2 := Some s1; temperature := None |}) = Some x1 /\
    BloodOxygenPerfusionModel.score
      (BloodOxygenPerfusionModel.assess
         {| bloodPressure := None; spO2 := Some s2; temperature := None |}) = Some x2 /\
    (x1 <=? x2) = true.
Proof.
  intros Hp Hle. unfold BloodOxygenPerfusionModel.assess.
  cbn [spO2 BloodOxygenPerfusionModel.score].
  do 2 eexists. split; [reflexivity|]. split; [reflexivity|].
  pose proof (perfusion_rank_monotone s1 s2 Hle) as R.
  unfold BloodOxygenPerfusionModel.calculateEfficiency. rewrite Hp.
  set (e := if percent s2 / 100 >=? 0.95 then Quality.excellent
            else if percent s2 / 100 >=? 0.90 then Quality.good else Quality.poor).
  destruct (BloodOxygenPerfusionModel.calculatePerfusion s1),
           (BloodOxygenPerfusionModel.calculatePerfusion s2);
    cbn in R; try lia; destruct e; reflexivity.
Qed.

Lemma perfusion_score_monotone_in_pi_witness :
  percent {| percent := 96; pi := 0.4; pr := None |}
    = percent {| percent := 96; pi := 1.5; pr := None |} /\
  (pi {| percent := 96; pi := 0.4; pr := None |}
     <=? pi {| percent := 96; pi := 1.5; pr := None |}) = true /\
  exists x1 x2,
    BloodOxygenPerfusionModel.score
      (BloodOxygenPerfusionModel.assess
         {| bloodPressure := None; spO2 := Some {| percent := 96; pi := 0.4; pr := None |};
            temperature := None |}) = Some x1 /\
    BloodOxygenPerfusionModel.score
      (BloodOxygenPerfusionModel.assess
         {| bloodPressure := None; spO2 := Some {| percent := 96; pi := 1.5; pr := None |};
            temperature := None |}) = Some x2 /\
    (x1 <=? x2) = true.
Proof.
  split; [reflexivity|]. split; [reflexivity|].
  apply (perfusion_score_monotone_in_pi
           {| percent := 96; pi := 0.4; pr := None |}
           {| percent := 96; pi := 1.5; pr := None |}); reflexivity.
Defined.



(** X21.  Two updates of the weights amount to one update in which the
    later value of each key wins; an update is idempotent; the empty update
    changes nothing; and the report carries the updated weights. *)
Theorem updateWeights_composes (current : ParameterCustomization.Weights)
    (first second : Customization.Patch) :
  Customization.updateWeights (Customization.updateWeights current first) second =
  Customization.updateWeights current
    {| Customization.bloodPressureStability :=
         Customization.later (Customization.bloodPressureStability first)
                             (Customization.bloodPressureStability second);
       Customization.bloodOxygenPerfusion :=
         Customization.later (Customization.bloodOxygenPerfusion first)
                             (Customization.bloodOxygenPerfusion second);
       Customization.temperaturePulseSynergy :=
         Customization.later (Customization.temperaturePulseSynergy first)
                             (Customization.temperaturePulseSynergy second) |} /\
  Customization.updateWeights (Customization.updateWeights current first) first =
  Customization.updateWeights current first /\
  Customization.updateWeights current
    {| Customization.bloodPressureStability := None;
       Customization.bloodOxygenPerfusion := None;
       Customization.temperaturePulseSynergy := None |} = current /\
  (forall healthData : HealthData,
     weights (compositeScore
       (generateComprehensiveAssessment (Customization.updateWeights current first) healthData))
     = Customization.updateWeights current first).
Proof.
  destruct current as [w1 w2 w3], first as [a1 a2 a3], second as [b1 b2 b3].
  unfold Customization.updateWeights, Customization.spread, Customization.later.
  cbn. repeat split.
  - destruct a1, a2, a3, b1, b2, b3; reflexivity.
  - destruct a1, a2, a3; reflexivity.
  - intros healthData. unfold generateComprehensiveAssessment, calculateCompositeScore.
    cbn [compositeScore]. now destruct (totals _ _).
Qed.



(** X22.  The composite score of the second module depends on the reading
    through its temperature and its pulse source only: two readings that
    agree on these get the same score, grade and confidence, whatever their
    blood pressure and saturation. *)
Theorem professional_composite_ignores_pressure_and_oxygen (h h' : HealthData) :
  temperature h = temperature h' ->
  pulseSource h = pulseSource h' ->
  Pro.compositeOf h = Pro.compositeOf h'.
Proof.
  intros Ht Hp.
  unfold Pro.compositeOf, Pro.calculateCompositeScore, Pro.totals, Pro.subModelAssessments,
    Pro.assessTempPulse.
  cbn [Pro.bpAssessment Pro.spo2Assessment Pro.tempPulseAssessment
       Pro.temperatureRated Pro.pulseRated].
  rewrite Ht, Hp.
  destruct (Pro.assessStability h), (Pro.assessStability h'),
           (Pro.assessPerfusion h), (Pro.assessPerfusion h'); reflexivity.
Qed.

Lemma professional_composite_ignores_pressure_and_oxygen_witness :
  let h := {| bloodPressure := Some {| systolic := 200; diastolic := 120; pulse := Some 72 |};
              spO2 := Some {| percent := 80; pi := 0.2; pr := Some 72 |};
              temperature := Some {| value := 36.5; location := "腋下" |} |} in
  let h' := {| bloodPressure := Some {| systolic := 118; diastolic := 76; pulse := Some 72 |};
               spO2 := None;
               temperature := Some {| value := 36.5; location := "腋下" |} |} in
  temperature h = temperature h' /\ pulseSource h = pulseSource h' /\
  Pro.compositeOf h = Pro.compositeOf h'.
Proof.
  intros h h'. split; [reflexivity|]. split; [reflexivity|].
  apply (professional_composite_ignores_pressure_and_oxygen h h'); reflexivity.
Defined.

Lemma professional_temperature_levels (t : Temperature) :
  exists c l, Pro.assessTemperature t = Pro.RatedAs c l /\
    In l [RiskLevel.high; RiskLevel.moderate; RiskLevel.low_moderate; RiskLevel.low].
Proof.
  unfold Pro.assessTemperature.
  destruct (_ >? _); [do 2 eexists; split; [reflexivity | cbn; tauto]|].
  destruct (_ >? _); [do 2 eexists; split; [reflexivity | cbn; tauto]|].
  destruct (_ <? _); [do 2 eexists; split; [reflexivity | cbn; tauto]|].
  destruct (_ <? _); do 2 eexists; split; try reflexivity; cbn; tauto.
Qed.

Lemma professional_pulse_levels (p : float) :
  exists c l, Pro.assessPulse p = Pro.RatedAs c l /\
    In l [RiskLevel.high; RiskLevel.moderate; RiskLevel.low].
Proof.
  unfold Pro.assessPulse.
  destruct (_ <? _); [do 2 eexists; split; [reflexivity | cbn; tauto]|].
  destruct (_ >? _); [do 2 eexists; split; [reflexivity | cbn; tauto]|].
  destruct (_ >? _); do 2 eexists; split; try reflexivity; cbn; tauto.
Qed.

(** X23.  In the second module an absent temperature or pulse is left out
    of both sums: with neither the score is 0, the confidence 0 and the
    grade critical; with one of them the score is that one's score and the
    confidence 20; with both the score is the rounded mean and the
    confidence 40. *)
Theorem professional_composite_by_presence (healthData : HealthData) :
  let cs := Pro.compositeOf healthData in
  let a := Pro.assessTempPulse healthData in
  match Pro.ratedRiskLevel (Pro.temperatureRated a), Pro.ratedRiskLevel (Pro.pulseRated a) with
  | None, None =>
      (temperature healthData = None /\ JS.truthy (pulseSource healthData) = false) /\
      Pro.score cs = 0 /\ Pro.confidence cs = 0 /\ Pro.grade cs = Grade.critical
  | Some l, None =>
      JS.truthy (pulseSource healthData) = false /\
      Pro.score cs = Pro.riskLevelToScore l /\ Pro.confidence cs = 20
  | None, Some l =>
      temperature healthData = None /\
      Pro.score cs = Pro.riskLevelToScore l /\ Pro.confidence cs = 20
  | Some l1, Some l2 =>
      Pro.score cs = JS.round ((Pro.riskLevelToScore l1 + Pro.riskLevelToScore l2) / 2 * 100) / 100 /\
      Pro.confidence cs = 40
  end.
Proof.
  cbv zeta.
  unfold Pro.compositeOf, Pro.calculateCompositeScore, Pro.totals, Pro.subModelAssessments.
  cbn [Pro.bpAssessment Pro.spo2Assessment Pro.tempPulseAssessment].
  replace (Pro.stabilityRiskLevel (Pro.assessStability healthData)) with (@None RiskLevel.t)
    by (now destruct (Pro.assessStability healthData)).
  replace (Pro.perfusionRiskLevel (Pro.assessPerfusion healthData)) with (@None RiskLevel.t)
    by (now destruct (Pro.assessPerfusion healthData)).
  unfold Pro.assessTempPulse. cbn [Pro.temperatureRated Pro.pulseRated].
  destruct (temperature healthData) as [t|];
    [destruct (professional_temperature_levels t) as (tc & tl & -> & Lt)|];
  (destruct (JS.truthy (pulseSource healthData));
    [destruct (professional_pulse_levels (JS.to_number (pulseSource healthData)))
       as (pc & pl & -> & Lp)|]);
  cbn [Pro.ratedRiskLevel].
  - cbn in Lt, Lp.
    destruct Lt as [<- | [<- | [<- | [<- | []]]]]; destruct Lp as [<- | [<- | [<- | []]]];
      vm_compute; split; reflexivity.
  - cbn in Lt. destruct Lt as [<- | [<- | [<- | [<- | []]]]]; vm_compute; repeat split.
  - cbn in Lp. destruct Lp as [<- | [<- | [<- | []]]]; vm_compute; repeat split.
  - vm_compute. repeat split.
Qed.



Lemma countItem_adds_one (counts : Viz.RiskCounts) (item : Viz.Item) :
  let c := Viz.countItem counts item in
  (Viz.low c + Viz.moderate c + Viz.high c + Viz.veryHigh c
   = S (Viz.low counts + Viz.moderate counts + Viz.high counts + Viz.veryHigh counts))%nat.
Proof.
  cbv zeta. unfold Viz.countItem, Viz.assessRiskLevel.
  destruct (Nat.leb 6 _); [cbn; lia|].
  destruct (Nat.leb 4 _); [cbn; lia|].
  destruct (Nat.leb 2 _); cbn; lia.
Qed.

Lemma fold_counts (items : list Viz.Item) (counts : Viz.RiskCounts) :
  let c := fold_left Viz.countItem items counts in
  (Viz.low c + Viz.moderate c + Viz.high c + Viz.veryHigh c
   = List.length items
     + (Viz.low counts + Viz.moderate counts + Viz.high counts + Viz.veryHigh counts))%nat.
Proof.
  revert counts. induction items as [|item items IH]; intros counts; cbn [fold_left List.length].
  - reflexivity.
  - cbv zeta in *. rewrite IH. pose proof (countItem_adds_one counts item) as H.
    cbv zeta in H. lia.
Qed.

(** X24.  The four risk counts of the doughnut chart add up to the number
    of samples, and the counts of two series appended are the sums of their
    counts. *)
Theorem risk_counts_cover_every_sample (items : list Viz.Item) :
  fold_right Nat.add 0%nat (Viz.prepareRiskStratificationData items) = List.length items /\
  (forall extra : list Viz.Item,
     let a := Viz.calculateRiskCounts items in
     let b := Viz.calculateRiskCounts extra in
     let c := Viz.calculateRiskCounts (items ++ extra) in
     Viz.low c = (Viz.low a + Viz.low b)%nat /\
     Viz.moderate c = (Viz.moderate a + Viz.moderate b)%nat /\
     Viz.high c = (Viz.high a + Viz.high b)%nat /\
     Viz.veryHigh c = (Viz.veryHigh a + Viz.veryHigh b)%nat).
Proof.
  split.
  - unfold Viz.prepareRiskStratificationData, Viz.calculateRiskCounts.
    pose proof (fold_counts items {| Viz.low := 0; Viz.moderate := 0; Viz.high := 0; Viz.veryHigh := 0 |}) as H.
    cbv zeta in H. cbn [fold_right] in *. cbn [Viz.low Viz.moderate Viz.high Viz.veryHigh] in H. lia.
  - intros extra. cbv zeta. unfold Viz.calculateRiskCounts. rewrite fold_left_app.
    generalize (fold_left Viz.countItem items
                  {| Viz.low := 0; Viz.moderate := 0; Viz.high := 0; Viz.veryHigh := 0 |}).
    intros start.
    assert (G : forall l s z,
      let c := fold_left Viz.countItem l s in
      let b := fold_left Viz.countItem l z in
      (Viz.low c + Viz.low z = Viz.low s + Viz.low b /\
       Viz.moderate c + Viz.moderate z = Viz.moderate s + Viz.moderate b /\
       Viz.high c + Viz.high z = Viz.high s + Viz.high b /\
       Viz.veryHigh c + Viz.veryHigh z = Viz.veryHigh s + Viz.veryHigh b)%nat).
    { induction l as [|i l IH]; intros s z; cbn [fold_left]; cbv zeta.
      - lia.
      - specialize (IH (Viz.countItem s i) (Viz.countItem z i)). cbv zeta in IH.
        unfold Viz.countItem in *.
        destruct (Viz.assessRiskLevel i); cbn [Viz.low Viz.moderate Viz.high Viz.veryHigh] in *; lia. }
    specialize (G extra start {| Viz.low := 0; Viz.moderate := 0; Viz.high := 0; Viz.veryHigh := 0 |}).
    cbv zeta in G. cbn [Viz.low Viz.moderate Viz.high Viz.veryHigh] in G. lia.
Qed.

(** X25.  The chart's risk score is at most 10.  A sample without SpO2 and
    temperature scores at most 5 and is never rated very_high; a sample that
    holds only a blood pressure with systolic 180 or more is rated moderate,
    while the blood-pressure classifier rates it very_high. *)
Theorem chart_risk_level_needs_several_signs :
  (forall item, (Viz.riskScore item <= 10)%nat) /\
  (forall item,
     spO2 (Viz.reading item) = None -> temperature (Viz.reading item) = None ->
     (Viz.riskScore item <= 5)%nat /\ Viz.assessRiskLevel item <> RiskLevel.very_high) /\
  (forall (stamp : string) (s d : float),
     (s >=? 180) = true ->
     let bp := {| systolic := s; diastolic := d; pulse := None |} in
     let item := {| Viz.timestamp := stamp;
                    Viz.reading := {| bloodPressure := Some bp; spO2 := None;
                                      temperature := None |} |} in
     Viz.assessRiskLevel item = RiskLevel.moderate /\
     riskLevel (assessBloodPressure (Some bp)) = Some RiskLevel.very_high).
Proof.
  split; [|split].
  - intros item. unfold Viz.riskScore.
    destruct (bloodPressure (Viz.reading item)) as [bp|];
    destruct (spO2 (Viz.reading item)) as [s|];
    destruct (temperature (Viz.reading item)) as [t|];
    destruct (JS.truthy (pulseSource (Viz.reading item)));
    repeat match goal with
    | |- context [if ?b then _ else _] => destruct b
    end; lia.
  - intros item Hs Ht. unfold Viz.assessRiskLevel.
    assert (B : (Viz.riskScore item <= 5)%nat).
    { unfold Viz.riskScore. rewrite Hs, Ht.
      destruct (bloodPressure (Viz.reading item)) as [bp|];
      destruct (JS.truthy (pulseSource (Viz.reading item)));
      repeat match goal with
      | |- context [if ?b then _ else _] => destruct b
      end; lia. }
    split; [exact B|].
    destruct (Nat.leb 6 (Viz.riskScore item)) eqn:E.
    + apply Nat.leb_le in E. lia.
    + destruct (Nat.leb 4 _); [discriminate|]. destruct (Nat.leb 2 _); discriminate.
  - intros stamp s d H bp item. subst item bp. split.
    + unfold Viz.assessRiskLevel, Viz.riskScore, pulseSource.
      cbn [Viz.reading bloodPressure spO2 temperature systolic diastolic pulse].
      rewrite H. reflexivity.
    + unfold assessBloodPressure. cbn [systolic diastolic]. rewrite H. reflexivity.
Qed.

Lemma map_length_eq {A B : Type} (f : A -> B) (l : list A) : List.length (map f l) = List.length l.
Proof. induction l; cbn; congruence. Qed.

(** X26.  The labels and the three series of the dual-axis chart have one
    entry per sample; the pulse series has a gap exactly where the pulse
    classifier returns [no_data], and otherwise holds the value of the pulse
    source. *)
Theorem dual_axis_series_aligned (items : list Viz.Item) :
  let chart := Viz.prepareDualAxisData items in
  List.length (Viz.labels chart) = List.length items /\
  Forall (fun ds => List.length (Viz.data ds) = List.length items) (Viz.datasets chart) /\
  map Viz.label (Viz.datasets chart) = [ "收縮壓"; "舒張壓"; "脈搏" ]%string /\
  (forall (i : nat) (item : Viz.Item),
     nth_error items i = Some item ->
     exists point,
       nth_error (Viz.data (nth 2 (Viz.datasets chart) {| Viz.label := ""; Viz.data := [] |})) i
         = Some point /\
       (point = None <->
          category (bvs_pulse (assessBasicVitalSigns (Viz.reading item))) = None) /\
       (forall v, point = Some v -> pulseSource (Viz.reading item) = Some v)).
Proof.
  cbv zeta. unfold Viz.prepareDualAxisData. cbn [Viz.labels Viz.datasets Viz.data nth map Viz.label].
  split; [apply map_length_eq|]. split; [repeat constructor; apply map_length_eq|].
  split; [reflexivity|].
  intros i item Hi. eexists. split; [apply map_nth_error; exact Hi|].
  unfold Viz.orNull, assessBasicVitalSigns. cbn [bvs_pulse]. unfold assessPulse.
  destruct (JS.truthy (pulseSource (Viz.reading item))) eqn:T; cbn [negb].
  - destruct (pulseSource (Viz.reading item)) as [p|]; [|discriminate].
    split; [split; intros H; [discriminate|]|intros v [= <-]; reflexivity].
    cbn [JS.to_number] in H.
    destruct (p <? 50); [discriminate|]. destruct (p >? 100); [discriminate|].
    destruct (p >? 120); discriminate.
  - split; [split; reflexivity | intros v H; discriminate].
Qed.


(** X27.  The score of the synergy evaluator is 1 when temperature and
    pulse are both normal; otherwise, with sufficient data, it lies between
    0.22 and 0.78. *)
Theorem synergy_full_score_only_when_both_normal (healthData : HealthData) :
  match TemperaturePulseSynergyModel.assess healthData with
  | TemperaturePulseSynergyModel.Insufficient _ x => x = 0
  | TemperaturePulseSynergyModel.Assessed t p _ x =>
      (TemperaturePulseSynergyModel.category t = Category.normal /\
       TemperaturePulseSynergyModel.category p = Category.normal /\ x = 1) \/
      ((TemperaturePulseSynergyModel.category t <> Category.normal \/
        TemperaturePulseSynergyModel.category p <> Category.normal) /\
       (0.22 <=? x) = true /\ (x <=? 0.78) = true)
  end.
Proof.
  unfold TemperaturePulseSynergyModel.assess.
  destruct (temperature healthData) as [t|]; [|reflexivity].
  destruct (JS.truthy (pulseSource healthData)); cbn [negb]; [|reflexivity].
  pose proof (synergy_temperature_listed t) as Lt.
  pose proof (synergy_pulse_listed (JS.to_number (pulseSource healthData))) as Lp.
  destruct (TemperaturePulseSynergyModel.assessTemperature t) as [tc tr ts].
  destruct (TemperaturePulseSynergyModel.assessPulse _) as [pc pr ps].
  cbn in Lt, Lp.
  destruct Lt as [E | [E | [E | [E | [E | []]]]]]; injection E as <- <- <-;
  destruct Lp as [E | [E | [E | [E | []]]]]; injection E as <- <- <-;
  cbn [TemperaturePulseSynergyModel.category];
  first [ left; repeat split; reflexivity
        | right; split; [first [left; discriminate | right; discriminate] | split; reflexivity] ].
Qed.


Lemma prefix_append (s t : string) : String.prefix s (s ++ t) = true.
Proof.
  induction s as [|c s IH]; cbn.
  - now destruct t.
  - destruct (Ascii.ascii_dec c c) as [_|N]; [exact IH | now destruct N].
Qed.

(** X28.  The enhanced message starts with the user's message.  Without
    device data it is the user's message followed by the fixed notice, the
    medications being left out.  A medication that is not active adds no
    line, and [getFrequencyText] applied twice is the same as once. *)
Theorem enhanced_message_contents (Value : Type) (show : Value -> string)
    (userMessage : string) (healthData : AiChat.UserHealthData Value) :
  let message := AiChat.buildEnhancedMessage Value show userMessage healthData in
  String.prefix userMessage message = true /\
  (AiChat.hasDeviceData Value healthData = false ->
     message =
       (userMessage ++ AiChat.newline ++ AiChat.newline
        ++ "注意：我還沒有錄入健康數據，請先使用智能設備數據錄入功能記錄您的健康狀況。")%string) /\
  (forall (before after : list (AiChat.Medication Value)) (med : AiChat.Medication Value),
     AiChat.status Value med <> "active"%string ->
     AiChat.medicationLines Value show (before ++ med :: after)
       = AiChat.medicationLines Value show (before ++ after)) /\
  (forall frequency,
     AiChat.getFrequencyText (AiChat.getFrequencyText frequency)
       = AiChat.getFrequencyText frequency).
Proof.
  cbv zeta. split; [|split; [|split]].
  - unfold AiChat.buildEnhancedMessage.
    destruct (AiChat.deviceData Value healthData) as [d|]; [|apply prefix_append].
    destruct (_ || _); apply prefix_append.
  - unfold AiChat.hasDeviceData, AiChat.buildEnhancedMessage.
    destruct (AiChat.deviceData Value healthData) as [d|]; [|reflexivity].
    intros ->. reflexivity.
  - intros before after med Hs. unfold AiChat.medicationLines.
    rewrite !fold_left_app. cbn [fold_left].
    destruct (String.eqb_spec (AiChat.status Value med) "active") as [E|_]; [contradiction|].
    reflexivity.
  - intros frequency. unfold AiChat.getFrequencyText at 2 3.
    destruct (lookup AiChat.frequencyMap frequency) as [text|] eqn:E.
    + unfold AiChat.frequencyMap in E. cbn [lookup] in E.
      repeat match type of E with
      | (if ?b then _ else _) = _ => destruct b; [injection E as <-; reflexivity|]
      end. discriminate.
    + unfold AiChat.getFrequencyText. now rewrite E.
Qed.
